(** * your_fits2fil: chunked PSRFITS -> Filterbank conversion

    A shallow embedding of [bin/your_fits2fil.py]: the chunk planner and
    channel window of [convert], the header adapter [make_sigproc_obj]
    and the append-or-create writer [write_fil], followed by the
    properties the specification states about them.

    Conventions of the embedding.
    - Python integers are [Z]; [//] and [%] are [Z.div] and [Z.modulo]
      (both floor towards minus infinity for a positive divisor).
    - Python floats are exact rationals [Q].  There is no NaN, infinity or
      rounding in the model; every float the stated properties evaluate
      is a dyadic number on which the two agree.
    - Exceptions are values of [exn]; a computation returns an [outcome].
    - The disk is a flat finite map from paths to byte strings, together
      with the trace of the calls the program made to the outside world.
      Directories are taken to exist and to be writable: I/O failures
      other than a missing file are outside the model. *)

From Stdlib Require Import ZArith QArith Qround Qabs Lia Lqa List String Ascii.
From Stdlib.Strings Require Import Byte.
From Stdlib Require Import DecimalString DecimalN.
From stdpp Require Import base list strings gmap.

Local Open Scope Z_scope.

(** ** Exceptions and results *)

Inductive exn : Type :=
| FileNotFoundError
| IndexError
| TypeError
| ValueError.

Inductive outcome (A : Type) : Type :=
| Ok (a : A)
| Raise (e : exn).
Arguments Ok {A} a.
Arguments Raise {A} e.

Definition outcome_bind {A B} (o : outcome A) (k : A -> outcome B) : outcome B :=
  match o with
  | Ok a => k a
  | Raise e => Raise e
  end.

(** ** Python and numpy primitives used by the script *)

Module Py.

(** Normalisation of one bound of a slice [a[lo:hi]] over a sequence of
    length [len]: a negative bound counts from the end, and both are
    clamped to [0, len].  Slicing never raises. *)
Definition slice_bound (len i : Z) : Z :=
  if i <? 0 then Z.max (i + len) 0 else Z.min i len.

Definition slice {A} (l : list A) (lo hi : Z) : list A :=
  let len := Z.of_nat (length l) in
  let lo' := slice_bound len lo in
  let hi' := slice_bound len hi in
  take (Z.to_nat (hi' - lo')) (drop (Z.to_nat lo') l).

(** [a[i]] for a non-negative literal index: [IndexError] out of range. *)
Definition getitem {A} (l : list A) (i : nat) : outcome A :=
  match l !! i with
  | Some x => Ok x
  | None => Raise IndexError
  end.

(** [a[-1] = v]: [IndexError] on an empty array. *)
Definition setitem_last {A} (l : list A) (v : A) : outcome (list A) :=
  match l with
  | [] => Raise IndexError
  | _ => Ok (<[Nat.pred (length l) := v]> l)
  end.

(** [np.arange(start, stop, step, dtype=int)] for a positive step. *)
Definition arange (start stop step : Z) : list Z :=
  map (fun i => start + Z.of_nat i * step)
      (seq 0 (Z.to_nat ((stop - start + step - 1) / step))).

(** [np.full(n, v)]. *)
Definition full (n v : Z) : list Z := repeat v (Z.to_nat n).

(** [zip(a, b)] stops at the shorter argument. *)
Definition zip {A B} (a : list A) (b : list B) : list (A * B) := combine a b.

(** [np.min(c)] and [np.max(c)] of a non-empty list of integers. *)
Definition np_min (c : list Z) : Z :=
  match c with
  | [] => 0
  | x :: r => fold_left Z.min r x
  end.

Definition np_max (c : list Z) : Z :=
  match c with
  | [] => 0
  | x :: r => fold_left Z.max r x
  end.

(** [s.split(sep)] for a one-character separator: never empty. *)
Fixpoint split (sep : ascii) (s : string) : list string :=
  match s with
  | EmptyString => [EmptyString]
  | String ch r =>
      if Ascii.eqb ch sep then EmptyString :: split sep r
      else match split sep r with
           | [] => [String ch EmptyString]
           | w :: ws => String ch w :: ws
           end
  end.

(** [sep.join(l)]. *)
Fixpoint join (sep : string) (l : list string) : string :=
  match l with
  | [] => EmptyString
  | [x] => x
  | x :: r => x +:+ sep +:+ join sep r
  end.

(** [s.rstrip('/')]. *)
Fixpoint rstrip_slash (s : string) : string :=
  match s with
  | EmptyString => EmptyString
  | String ch r =>
      let r' := rstrip_slash r in
      if Ascii.eqb ch "/" && String.eqb r' EmptyString
      then EmptyString else String ch r'
  end.

(** [(p[:i], p[i:])] with [i = p.rfind('/') + 1]. *)
Fixpoint cut_last_slash (p : string) : string * string :=
  match p with
  | EmptyString => (EmptyString, EmptyString)
  | String ch r =>
      let '(h, t) := cut_last_slash r in
      if negb (String.eqb h EmptyString) then (String ch h, t)
      else if Ascii.eqb ch "/" then (String ch EmptyString, r)
      else (EmptyString, String ch t)
  end.

(** [os.path.split(p)] (posixpath): the head loses its trailing slashes
    unless it consists of slashes only. *)
Definition os_path_split (p : string) : string * string :=
  let '(head, tail) := cut_last_slash p in
  let stripped := rstrip_slash head in
  (if String.eqb stripped EmptyString then head else stripped, tail).

(** Truthiness of an optional string argument: [None] and [''] are false. *)
Definition truthy (s : option string) : option string :=
  match s with
  | Some EmptyString => None
  | other => other
  end.

(** [int(x)] of a float: truncation towards zero. *)
Definition int_of_float (x : Q) : Z := Z.quot (Qnum x) (Z.pos (Qden x)).

(** Decimal digits of a natural number, and left padding with zeros. *)
Definition digits (n : Z) : string := NilEmpty.string_of_uint (N.to_uint (Z.to_N n)).

Definition zfill (width : nat) (s : string) : string :=
  string_of_list_ascii (repeat "0"%char (width - String.length s)) +:+ s.

(** [format(n, '02d')]: sign-aware zero padding to two characters. *)
Definition format_02d (n : Z) : string :=
  if n <? 0 then "-" +:+ zfill 1 (digits (Z.abs n)) else zfill 2 (digits n).

(** Rounding of a non-negative rational to the nearest integer, ties to
    even, as the [f] presentation type rounds the exact value. *)
Definition round_half_even (x : Q) : Z :=
  let fl := Qfloor x in
  match Qcompare (x - inject_Z fl) (1 # 2) with
  | Lt => fl
  | Gt => fl + 1
  | Eq => if Z.even fl then fl else fl + 1
  end.

(** [format(x, '07.4f')] of a non-negative float: four decimals, zero
    padded to seven characters. *)
Definition format_07_4f (x : Q) : string :=
  let r := round_half_even (x * inject_Z 10000) in
  zfill 7 (digits (r / 10000) +:+ "." +:+ zfill 4 (digits (r mod 10000))).

(** [float(s)] on the decimal literals the script builds: an optional
    minus sign, digits, at most one point; anything else is a
    [ValueError]. *)
Definition digit_of_ascii (ch : ascii) : option Z :=
  let n := Z.of_N (N_of_ascii ch) in
  if (48 <=? n) && (n <=? 57) then Some (n - 48) else None.

Fixpoint scan (s : string) (mant : Z) (seen : bool) (frac : option nat)
  : option (Z * nat) :=
  match s with
  | EmptyString => if seen then Some (mant, default 0%nat frac) else None
  | String ch r =>
      if Ascii.eqb ch "." then
        match frac with
        | None => scan r mant seen (Some 0%nat)
        | Some _ => None
        end
      else
        match digit_of_ascii ch with
        | Some d => scan r (10 * mant + d) true (S <$> frac)
        | None => None
        end
  end.

Definition unsigned_of_string (s : string) : option Q :=
  match scan s 0 false None with
  | Some (mant, k) => Some (inject_Z mant / inject_Z (10 ^ Z.of_nat k))%Q
  | None => None
  end.

Definition float_of_string (s : string) : outcome Q :=
  let r := match s with
           | String ch r =>
               if Ascii.eqb ch "-" then Qopp <$> unsigned_of_string r
               else unsigned_of_string s
           | EmptyString => None
           end in
  match r with
  | Some q => Ok (Qred q)
  | None => Raise ValueError
  end.

End Py.

(** ** Chunk planner ([convert], "Calculate loop of spectra") *)

Definition interval : Z := 4096 * 24.

Definition nloops (native_nspectra : Z) : Z :=
  if interval <? native_nspectra then 1 + native_nspectra / interval else 1.

Definition nstarts (native_nspectra : Z) : list Z :=
  Py.arange 0 (interval * nloops native_nspectra) interval.

Definition nsamps (native_nspectra : Z) : outcome (list Z) :=
  let full := Py.full (nloops native_nspectra) interval in
  if negb (native_nspectra mod interval =? 0)
  then Py.setitem_last full (native_nspectra mod interval)
  else Ok full.

(** The [(nstart, nsamp)] pairs the read loop iterates over. *)
Definition chunks (native_nspectra : Z) : outcome (list (Z * Z)) :=
  outcome_bind (nsamps native_nspectra)
    (fun sizes => Ok (Py.zip (nstarts native_nspectra) sizes)).

(** Total number of samples the planned chunks ask for. *)
Definition planned_samples (cs : list (Z * Z)) : Z :=
  fold_right Z.add 0 (map snd cs).

(** Chunk [i+1] starts where chunk [i] ends. *)
Fixpoint contiguous_from (start : Z) (cs : list (Z * Z)) : Prop :=
  match cs with
  | [] => True
  | (s, n) :: r => s = start /\ contiguous_from (s + n) r
  end.

(** Start offsets strictly increase and no chunk runs into the next. *)
Fixpoint disjoint_increasing (cs : list (Z * Z)) : Prop :=
  match cs with
  | [] => True
  | (s, n) :: r =>
      match r with
      | [] => True
      | (s', _) :: _ => s < s' /\ s + n <= s'
      end /\ disjoint_increasing r
  end.

(** ** Sexagesimal decomposition of sky coordinates

    [SkyCoord(ra, dec, unit='deg')] and its [ra.hms] and [dec.dms] come
    from astropy.  The decomposition follows astropy's
    [degrees_to_dms]: the sign of the angle is carried by each of the
    three components; right ascension is wrapped into [0, 360) degrees
    and expressed in hours.  Declinations are taken within astropy's
    domain of latitudes. *)

Definition sexagesimal (x : Q) : Q * Q * Q :=
  let sign := if Qle_bool 0 x then 1 else -1 in
  let a := Qabs x in
  let d := Qfloor a in
  let mfull := ((a - inject_Z d) * inject_Z 60)%Q in
  let m := Qfloor mfull in
  let s := ((mfull - inject_Z m) * inject_Z 60)%Q in
  (inject_Z (sign * d), inject_Z (sign * m), Qred (inject_Z sign * s)).

Definition wrap_360 (ra : Q) : Q :=
  (ra - inject_Z (360 * Qfloor (ra / inject_Z 360)))%Q.

Definition ra_hms (ra_deg : Q) : Q * Q * Q :=
  sexagesimal (wrap_360 ra_deg / inject_Z 15).

Definition dec_dms (dec_deg : Q) : Q * Q * Q :=
  sexagesimal dec_deg.

(** The packed literal of lines 74 and 75:
    [f'{int(t[0]):02d}{np.abs(int(t[1])):02d}{np.abs(t[2]):07.4f}']. *)
Definition packed_literal (t : Q * Q * Q) : string :=
  let '(t0, t1, t2) := t in
  Py.format_02d (Py.int_of_float t0)
  +:+ Py.format_02d (Z.abs (Py.int_of_float t1))
  +:+ Py.format_07_4f (Qabs t2).

(** ** The target header object ([SigprocFile] attributes set by the script) *)

Record SigprocFile : Type := {
  rawdatafile : string;
  source_name : string;
  machine_id : Z;
  barycentric : Z;
  pulsarcentric : Z;
  telescope_id : Z;
  data_type : Z;
  nchans : option Z;
  foff : Q;
  fch1 : Q;
  nbeams : Z;
  ibeam : Z;
  nbits : Z;
  tsamp : Q;
  tstart : Q;
  nifs : Z;
  src_raj : Q;
  src_dej : Q;
  az_start : Z;
  za_start : Z
}.

(** ** The source stream, the disk and the conversion *)

Section Conversion.

(** Array items and numpy dtypes are kept abstract: [astype] is the
    cast of one item, [tobytes] its raw bytes in the output file. *)
Context {sample dtype : Type}.
Variable astype : dtype -> sample -> sample.
Variable tobytes : sample -> list byte.

(** Serialised form of a header, as [write_header] puts it on disk. *)
Variable header_bytes : SigprocFile -> list byte.

(** A two-dimensional array: one row per spectrum, one item per channel. *)
Definition spectra : Type := list (list sample).

(** [y.your_header]: the attributes the script reads. *)
Record YourHeader : Type := {
  hdr_filename : string;
  hdr_source_name : string;
  hdr_foff : Q;
  hdr_nbits : Z;
  hdr_tsamp : Q;
  hdr_tstart : Q;
  hdr_ra_deg : Q;
  hdr_dec_deg : Q;
  hdr_native_nspectra : Z;
  hdr_dtype : dtype
}.

(** The object [Your(f)] returns; [get_data] is its reading method. *)
Record Your : Type := {
  your_header : YourHeader;
  chan_freqs : list Q;
  get_data : Z -> Z -> spectra
}.

(** What the script does to the outside world, in program order:
    [GetData] is a call of [y.get_data], [TryWrite] the entry of
    [write_fil] (its first log line), [Stat] the size check,
    [GenerateSigproc] the entry of [make_sigproc_obj] (its first log
    line), [WriteHeader] and [AppendSpectra] the two calls into
    [SigprocFile]. *)
Inductive event : Type :=
| GetData (nstart nsamp : Z)
| TryWrite (filfile : string)
| Stat (path : string)
| GenerateSigproc
| WriteHeader (fil_obj : SigprocFile) (path : string)
| AppendSpectra (data : spectra) (path : string).

Record world : Type := {
  files : gmap string (list byte);
  trace : list event
}.

(** State and exception monad: effects made before a [Raise] persist. *)
Definition M (A : Type) : Type := world -> world * outcome A.

Definition ret {A} (a : A) : M A := fun w => (w, Ok a).

Definition bind {A B} (m : M A) (k : A -> M B) : M B :=
  fun w =>
    match m w with
    | (w', Ok a) => k a w'
    | (w', Raise e) => (w', Raise e)
    end.

Definition lift {A} (o : outcome A) : M A := fun w => (w, o).

Definition emit (e : event) : M unit :=
  fun w => ({| files := files w; trace := trace w ++ [e] |}, Ok tt).

(** [try: body / except FileNotFoundError: handler]. *)
Definition try_except_FileNotFoundError {A} (body handler : M A) : M A :=
  fun w =>
    match body w with
    | (w', Raise FileNotFoundError) => handler w'
    | r => r
    end.

Notation "'do' x <- m ;; k" := (bind m (fun x => k))
  (at level 10, x name, m at level 99, k at level 200, only parsing).
Notation "'run' m ;; k" := (bind m (fun _ => k))
  (at level 10, m at level 99, k at level 200, only parsing).

Fixpoint for_each {A} (l : list A) (body : A -> M unit) : M unit :=
  match l with
  | [] => ret tt
  | x :: r => run body x ;; for_each r body
  end.

(** [os.stat(path).st_size]. *)
Definition os_stat_size (path : string) : M Z :=
  run emit (Stat path) ;;
  fun w =>
    match files w !! path with
    | Some content => (w, Ok (Z.of_nat (length content)))
    | None => (w, Raise FileNotFoundError)
    end.

(** Raw bytes of [spectra.flatten()]. *)
Definition data_bytes (data : spectra) : list byte :=
  concat (map tobytes (concat data)).

(** Modelled from the spec: [SigprocFile.write_header] is not among the
    sources.  It (re-)writes the header: the file at [path] consists of
    the header block alone afterwards. *)
Definition write_header (fil_obj : SigprocFile) (path : string) : M unit :=
  run emit (WriteHeader fil_obj path) ;;
  fun w =>
    ({| files := <[path := header_bytes fil_obj]> (files w); trace := trace w |},
     Ok tt).

(** Modelled from the spec: [SigprocFile.append_spectra] is not among the
    sources.  It appends the sample records of [data] to the end of the
    file at [path], with no re-framing. *)
Definition append_spectra (data : spectra) (path : string) : M unit :=
  run emit (AppendSpectra data path) ;;
  fun w =>
    ({| files := <[path := default [] (files w !! path) ++ data_bytes data]>
                   (files w);
        trace := trace w |},
     Ok tt).

(** *** Header adapter *)

(** [make_sigproc_obj]: the attributes are set in the order of the
    script, so [chan_freq[1]] is read before the coordinates are packed. *)
Definition make_sigproc_obj (filfile : string) (y : Your)
    (nchans : option Z) (chan_freq : option (list Q)) : M SigprocFile :=
  run emit GenerateSigproc ;;
  do freq1 <- lift (match chan_freq with
                    | None => Raise TypeError
                    | Some cf => Py.getitem cf 1
                    end) ;;
  do raj <- lift (Py.float_of_string
                    (packed_literal (ra_hms (hdr_ra_deg (your_header y))))) ;;
  do dej <- lift (Py.float_of_string
                    (packed_literal (dec_dms (hdr_dec_deg (your_header y))))) ;;
  ret {| rawdatafile := filfile;
         source_name := hdr_source_name (your_header y);
         machine_id := 0;
         barycentric := 0;
         pulsarcentric := 0;
         telescope_id := 6;
         data_type := 0;
         nchans := nchans;
         foff := hdr_foff (your_header y);
         fch1 := freq1;
         nbeams := 1;
         ibeam := 0;
         nbits := hdr_nbits (your_header y);
         tsamp := hdr_tsamp (your_header y);
         tstart := hdr_tstart (your_header y);
         nifs := 1;
         src_raj := raj;
         src_dej := dej;
         az_start := -1;
         za_start := -1 |}.

(** *** Append-or-create writer *)

(** The path [write_fil] writes to. *)
Definition output_path (y : Your) (filename outdir : option string) : string :=
  let '(original_dir, orig_basename) :=
    Py.os_path_split (hdr_filename (your_header y)) in
  let filename :=
    match Py.truthy filename with
    | Some name => name
    | None =>
        Py.join "_"
          (removelast (Py.split "_" (hd EmptyString (Py.split "." orig_basename))))
        +:+ ".fil"
    end in
  let outdir :=
    match Py.truthy outdir with
    | Some dir => dir
    | None => original_dir
    end in
  outdir +:+ "/" +:+ filename.

(** [write_fil]: the size check decides between appending and creating;
    a missing file is caught and treated as creating. *)
Definition write_fil (data : spectra) (y : Your)
    (nchans : option Z) (chan_freq : option (list Q))
    (filename outdir : option string) : M unit :=
  let filfile := output_path y filename outdir in
  run emit (TryWrite filfile) ;;
  try_except_FileNotFoundError
    (do size <- os_stat_size filfile ;;
     if 8192 <? size then
       append_spectra data filfile
     else
       do fil_obj <- make_sigproc_obj filfile y nchans chan_freq ;;
       run write_header fil_obj filfile ;;
       append_spectra data filfile)
    (do fil_obj <- make_sigproc_obj filfile y nchans chan_freq ;;
     run write_header fil_obj filfile ;;
     append_spectra data filfile).

(** *** Streaming converter *)

(** The effective channel window [(min_c, max_c)]. *)
Definition channel_window (y : Your) (c : option (list Z)) : Z * Z :=
  match c with
  | Some (x :: r) => (Py.np_min (x :: r), Py.np_max (x :: r))
  | _ => (0, Z.of_nat (length (chan_freqs y)))
  end.

(** [convert], from the object [y] that [Your(f)] returned: the window
    is resolved, the chunks are planned, and each chunk is read, cut to
    the window and handed to the writer, in order. *)
Definition convert (y : Your) (c : option (list Z))
    (outdir filfile : option string) : M unit :=
  let '(min_c, max_c) := channel_window y c in
  let chan_freq := Py.slice (chan_freqs y) min_c max_c in
  let nchans := Z.of_nat (length chan_freq) in
  do plan <- lift (chunks (hdr_native_nspectra (your_header y))) ;;
  for_each plan (fun '(nstart, nsamp) =>
    run emit (GetData nstart nsamp) ;;
    let data := map (map (astype (hdr_dtype (your_header y))))
                    (get_data y nstart nsamp) in
    let data := map (fun row => Py.slice row min_c max_c) data in
    write_fil data y (Some nchans) (Some chan_freq) filfile outdir).

(** The sequence "construct the header, write it, append the chunk"
    that the specification calls the Absent branch. *)
Definition create_with_header (data : spectra) (y : Your)
    (nchans : option Z) (chan_freq : option (list Q)) (filfile : string)
  : M unit :=
  do fil_obj <- make_sigproc_obj filfile y nchans chan_freq ;;
  run write_header fil_obj filfile ;;
  append_spectra data filfile.

(** The channel-frequency slice [chan_freq] of [convert]. *)
Definition retained_freqs (y : Your) (c : option (list Z)) : list Q :=
  Py.slice (chan_freqs y) (fst (channel_window y c)) (snd (channel_window y c)).

(** The array [convert] hands to the writer for the chunk
    [(nstart, nsamp)]. *)
Definition chunk_data (y : Your) (c : option (list Z)) (nstart nsamp : Z)
  : spectra :=
  map (fun row => Py.slice row (fst (channel_window y c)) (snd (channel_window y c)))
      (map (map (astype (hdr_dtype (your_header y)))) (get_data y nstart nsamp)).

(** Modelled from the spec: [Your.get_data] is not among the sources.
    It reads exactly the requested number of spectra, each with one
    item per channel of the source. *)
Definition reads_as_requested (y : Your) : Prop :=
  forall nstart nsamp,
    length (get_data y nstart nsamp) = Z.to_nat nsamp
    /\ Forall (fun row => length row = length (chan_freqs y))
              (get_data y nstart nsamp).

(** The world after the calls [es] have been recorded. *)
Definition logged (w : world) (es : list event) : world :=
  {| files := files w; trace := trace w ++ es |}.

(** The world after [path] has received [content]. *)
Definition stored (w : world) (path : string) (content : list byte)
    (es : list event) : world :=
  {| files := <[path := content]> (files w); trace := trace w ++ es |}.

End Conversion.

(** Modelled from the spec: the header block [write_header] puts on disk
    (not among the sources) has a fixed size, and the threshold of the
    writer's size check matches it exactly. *)
Definition header_size : Z := 8192.

(** Size of the last planned chunk: the remainder, or a full window when
    the remainder is zero. *)
Definition last_nsamp (native_nspectra : Z) : Z :=
  if native_nspectra mod interval =? 0 then interval
  else native_nspectra mod interval.

(** The plan written out: [j] full windows followed by one chunk of
    size [last]. *)
Definition windows_then (j : nat) (last : Z) : list (Z * Z) :=
  map (fun i => (Z.of_nat i * interval, interval)) (seq 0 j)
  ++ [(Z.of_nat j * interval, last)].

Arguments YourHeader : clear implicits.
Arguments Your : clear implicits.
Arguments world : clear implicits.
Arguments event : clear implicits.

(** Strings made of decimal digits only. *)
Fixpoint all_digits (s : string) : Prop :=
  match s with
  | EmptyString => True
  | String ch r => is_Some (Py.digit_of_ascii ch) /\ all_digits r
  end.

(** ** A small synthetic stream, used to run the model *)

Module Example.

(** Items are unsigned bytes. *)
Definition tobytes (x : Z) : list byte :=
  match Byte.of_N (Z.to_N (x mod 256)) with
  | Some b => [b]
  | None => [x00]
  end.

Definition astype (_ : unit) (x : Z) : Z := x mod 256.

(** A blank header block of the fixed size. *)
Definition header_bytes (_ : SigprocFile) : list byte :=
  repeat x00 (Z.to_nat header_size).

Definition band : list Q := [inject_Z 1500; inject_Z 1499; inject_Z 1498; inject_Z 1497].

Definition header (nspectra : Z) : YourHeader unit :=
  {| hdr_filename := "/data/guppi_57000_J0000_0001.fits";
     hdr_source_name := "J0000";
     hdr_foff := inject_Z (-1);
     hdr_nbits := 8;
     hdr_tsamp := (1 # 1000)%Q;
     hdr_tstart := inject_Z 57000;
     hdr_ra_deg := inject_Z 180;
     hdr_dec_deg := (-91 # 2)%Q;
     hdr_native_nspectra := nspectra;
     hdr_dtype := tt |}.

(** [nspectra] spectra over the channels [freqs]; sample [i] of channel
    [j] holds [i + j]. *)
Definition stream (nspectra : Z) (freqs : list Q) : Your Z unit :=
  {| your_header := header nspectra;
     chan_freqs := freqs;
     get_data := fun nstart nsamp =>
       map (fun i => map (fun j => nstart + Z.of_nat i + Z.of_nat j)
                         (seq 0 (length freqs)))
           (seq 0 (Z.to_nat nsamp)) |}.

Definition empty_disk : world Z := {| files := ∅; trace := [] |}.

(** A disk holding one file. *)
Definition disk_with (path : string) (content : list byte) : world Z :=
  {| files := {[ path := content ]}; trace := [] |}.

Definition out_path : string := "out/guppi_57000_J0000.fil".

(** The header the adapter builds for the whole band. *)
Definition band_header : SigprocFile :=
  {| rawdatafile := out_path;
     source_name := "J0000";
     machine_id := 0;
     barycentric := 0;
     pulsarcentric := 0;
     telescope_id := 6;
     data_type := 0;
     nchans := Some 4;
     foff := inject_Z (-1);
     fch1 := inject_Z 1499;
     nbeams := 1;
     ibeam := 0;
     nbits := 8;
     tsamp := (1 # 1000)%Q;
     tstart := inject_Z 57000;
     nifs := 1;
     src_raj := inject_Z 120000;
     src_dej := inject_Z (-453000);
     az_start := -1;
     za_start := -1 |}.

End Example.

(** ** Plans as a whole, the command line, and the value of a literal *)

Section Plans.

Context {sample dtype : Type}.
Variable astype : dtype -> sample -> sample.
Variable tobytes : sample -> list byte.

(** The bytes the chunks of a plan put on disk, in plan order. *)
Definition plan_bytes (y : Your sample dtype) (c : option (list Z))
    (cs : list (Z * Z)) : list byte :=
  flat_map (fun '(nstart, nsamp) =>
              data_bytes tobytes (chunk_data astype y c nstart nsamp)) cs.

(** The calls made for chunks that are appended to a file holding data:
    a read, the writer entry, the size check and the append. *)
Definition append_events (y : Your sample dtype) (c : option (list Z))
    (path : string) (cs : list (Z * Z)) : list (event sample) :=
  flat_map (fun '(nstart, nsamp) =>
              [GetData nstart nsamp; TryWrite path; Stat path;
               AppendSpectra (chunk_data astype y c nstart nsamp) path]) cs.

End Plans.

(** The list of input files ([__main__], lines 199 to 202): an argument
    with more than one space-separated piece is taken as the list of its
    pieces, any other argument is expanded by [glob.glob]. *)
Definition resolve_files (glob : string -> list string) (files : string)
  : list string :=
  if (1 <? length (Py.split " " files))%nat then Py.split " " files
  else glob files.

(** Occurrences of a character in a string. *)
Fixpoint count_char (ch : ascii) (s : string) : nat :=
  match s with
  | EmptyString => 0%nat
  | String x r => ((if Ascii.eqb x ch then 1 else 0) + count_char ch r)%nat
  end.

(** The number a string of decimal digits denotes, continuing from [acc]. *)
Fixpoint uint_value (acc : Z) (d : Decimal.uint) : Z :=
  match d with
  | Decimal.Nil => acc
  | Decimal.D0 r => uint_value (10 * acc) r
  | Decimal.D1 r => uint_value (10 * acc + 1) r
  | Decimal.D2 r => uint_value (10 * acc + 2) r
  | Decimal.D3 r => uint_value (10 * acc + 3) r
  | Decimal.D4 r => uint_value (10 * acc + 4) r
  | Decimal.D5 r => uint_value (10 * acc + 5) r
  | Decimal.D6 r => uint_value (10 * acc + 6) r
  | Decimal.D7 r => uint_value (10 * acc + 7) r
  | Decimal.D8 r => uint_value (10 * acc + 8) r
  | Decimal.D9 r => uint_value (10 * acc + 9) r
  end.

(** The parts of a non-negative angle [a]: whole units, minutes, and
    seconds with their fraction. *)
Definition whole_part (a : Q) : Z := Qfloor a.

Definition minute_part (a : Q) : Z :=
  Qfloor ((a - inject_Z (whole_part a)) * inject_Z 60).

Definition second_part (a : Q) : Q :=
  (((a - inject_Z (whole_part a)) * inject_Z 60 - inject_Z (minute_part a))
   * inject_Z 60)%Q.

(** Seconds in units of 1/10000, rounded as the [.4f] format rounds. *)
Definition second_ticks (a : Q) : Z :=
  Py.round_half_even (second_part a * inject_Z 10000).

(** The number written [DDMMSS.SSSS] for the angle [a], with sign [sign]. *)
Definition packed_value (sign : Z) (a : Q) : Q :=
  Qred (inject_Z (sign * ((whole_part a * 100 + minute_part a) * 1000000
                          + second_ticks a))
        / inject_Z 10000).

(** The sign the packed declination carries: negative only when the angle
    is negative and its whole part is not zero. *)
Definition packed_sign (x : Q) : Z :=
  if Qle_bool 0 x || (whole_part (Qabs x) =? 0) then 1 else -1.

(** ** Further synthetic streams *)

Module Gallery.

(** The header of [Example], with another file name and declination. *)
Definition header_at (filename : string) (dec : Q) : YourHeader unit :=
  {| hdr_filename := filename;
     hdr_source_name := "J0000";
     hdr_foff := inject_Z (-1);
     hdr_nbits := 8;
     hdr_tsamp := (1 # 1000)%Q;
     hdr_tstart := inject_Z 57000;
     hdr_ra_deg := inject_Z 180;
     hdr_dec_deg := dec;
     hdr_native_nspectra := 3;
     hdr_dtype := tt |}.

Definition stream_at (filename : string) (dec : Q) : Your Z unit :=
  {| your_header := header_at filename dec;
     chan_freqs := Example.band;
     get_data := get_data (Example.stream 3 Example.band) |}.

(** The header the adapter builds at declination -0.5 degrees. *)
Definition half_degree_south : SigprocFile :=
  {| rawdatafile := Example.out_path;
     source_name := "J0000";
     machine_id := 0;
     barycentric := 0;
     pulsarcentric := 0;
     telescope_id := 6;
     data_type := 0;
     nchans := Some 4;
     foff := inject_Z (-1);
     fch1 := inject_Z 1499;
     nbeams := 1;
     ibeam := 0;
     nbits := 8;
     tsamp := (1 # 1000)%Q;
     tstart := inject_Z 57000;
     nifs := 1;
     src_raj := inject_Z 120000;
     src_dej := inject_Z 3000;
     az_start := -1;
     za_start := -1 |}.

End Gallery.

(** * Properties *)

(** ** Chunk planner *)

Lemma interval_eq : interval = 98304.
Proof. reflexivity. Qed.

Lemma interval_pos : 0 < interval.
Proof. rewrite interval_eq. lia. Qed.

Lemma nloops_pos n : 1 <= nloops n.
Proof.
  unfold nloops. destruct (interval <? n) eqn:E; [|lia].
  apply Z.ltb_lt in E. pose proof interval_pos.
  assert (0 <= n / interval) by (apply Z.div_pos; lia). lia.
Qed.

Lemma arange_windows k :
  0 <= k ->
  Py.arange 0 (interval * k) interval
  = map (fun i => Z.of_nat i * interval) (seq 0 (Z.to_nat k)).
Proof.
  intros Hk. unfold Py.arange. pose proof interval_pos as Hp.
  replace ((interval * k - 0 + interval - 1) / interval) with k.
  - apply map_ext. intros i. lia.
  - apply Z.div_unique with (r := interval - 1); lia.
Qed.

Lemma setitem_last_repeat (v x : Z) j :
  Py.setitem_last (repeat v (S j)) x = Ok (repeat v j ++ [x]).
Proof.
  unfold Py.setitem_last. simpl repeat at 1.
  f_equal. rewrite repeat_length. simpl Nat.pred.
  replace (repeat v (S j)) with (repeat v j ++ [v]).
  - replace j with (length (repeat v j) + 0)%nat at 1
      by (rewrite repeat_length; lia).
    rewrite insert_app_r. reflexivity.
  - clear. induction j as [|j IH]; simpl; [reflexivity|].
    f_equal. exact IH.
Qed.

Lemma repeat_snoc (v : Z) j : repeat v (S j) = repeat v j ++ [v].
Proof.
  induction j as [|j IH]; simpl; [reflexivity|]. f_equal. exact IH.
Qed.

Lemma combine_snoc {A B} (l1 : list A) (k1 : list B) a b :
  length l1 = length k1 ->
  combine (l1 ++ [a]) (k1 ++ [b]) = combine l1 k1 ++ [(a, b)].
Proof.
  revert k1. induction l1 as [|x l1 IH]; intros [|y k1] Hlen;
    simpl in *; try discriminate; [reflexivity|].
  f_equal. apply IH. lia.
Qed.

Lemma combine_windows j (last : Z) :
  combine (map (fun i => Z.of_nat i * interval) (seq 0 (S j)))
          (repeat interval j ++ [last])
  = windows_then j last.
Proof.
  unfold windows_then. rewrite seq_S, map_app. simpl.
  rewrite combine_snoc by (rewrite length_map, length_seq, repeat_length; reflexivity).
  f_equal. generalize 0%nat as a.
  induction j as [|j IH]; intros a; simpl; [reflexivity|].
  f_equal. apply IH.
Qed.

(** The planner's output in closed form. *)
Lemma chunks_closed_form n :
  chunks n = Ok (windows_then (Z.to_nat (nloops n - 1)) (last_nsamp n)).
Proof.
  pose proof (nloops_pos n) as Hk.
  unfold chunks, nsamps, nstarts, Py.full, Py.zip, last_nsamp.
  rewrite arange_windows by lia.
  replace (Z.to_nat (nloops n)) with (S (Z.to_nat (nloops n - 1))) by lia.
  destruct (n mod interval =? 0) eqn:E; simpl negb; cbv iota.
  - rewrite repeat_snoc. simpl outcome_bind. f_equal. apply combine_windows.
  - rewrite setitem_last_repeat. simpl outcome_bind. f_equal.
    apply combine_windows.
Qed.

Lemma planned_samples_app a b :
  planned_samples (a ++ b) = planned_samples a + planned_samples b.
Proof.
  unfold planned_samples. induction a as [|[s n] a IH]; simpl; [lia|].
  rewrite map_app in *. simpl in *. lia.
Qed.

Lemma planned_samples_windows j last :
  planned_samples (windows_then j last) = Z.of_nat j * interval + last.
Proof.
  unfold windows_then. rewrite planned_samples_app.
  assert (H : forall a, planned_samples
            (map (fun i => (Z.of_nat i * interval, interval)) (seq a j))
          = Z.of_nat j * interval).
  { induction j as [|j IH]; intros a; [reflexivity|].
    simpl seq. simpl map. unfold planned_samples in *. simpl.
    rewrite IH. lia. }
  rewrite H. unfold planned_samples. simpl. lia.
Qed.

Lemma contiguous_windows j last a :
  contiguous_from (Z.of_nat a * interval)
    (map (fun i => (Z.of_nat i * interval, interval)) (seq a j)
     ++ [(Z.of_nat (a + j) * interval, last)]).
Proof.
  revert a. induction j as [|j IH]; intros a; simpl.
  - replace (a + 0)%nat with a by lia. auto.
  - split; [reflexivity|].
    replace (Z.of_nat a * interval + interval) with (Z.of_nat (S a) * interval) by lia.
    replace (a + S j)%nat with (S a + j)%nat by lia. apply IH.
Qed.

Lemma disjoint_windows j last a :
  disjoint_increasing
    (map (fun i => (Z.of_nat i * interval, interval)) (seq a j)
     ++ [(Z.of_nat (a + j) * interval, last)]).
Proof.
  pose proof interval_pos as Hp.
  revert a. induction j as [|j IH]; intros a; simpl.
  - auto.
  - split.
    + destruct j; simpl.
      * replace (a + 1)%nat with (S a) by lia. lia.
      * lia.
    + replace (a + S j)%nat with (S a + j)%nat by lia. apply IH.
Qed.

(** X1: whenever the sample count is positive and is not a multiple of the
    window beyond the first window, the plan partitions [0, n). *)
Lemma chunks_partition n :
  0 < n ->
  n <= interval \/ n mod interval <> 0 ->
  exists cs, chunks n = Ok cs
    /\ planned_samples cs = n
    /\ contiguous_from 0 cs
    /\ disjoint_increasing cs.
Proof.
  intros Hn Hcase. pose proof interval_pos as Hp.
  exists (windows_then (Z.to_nat (nloops n - 1)) (last_nsamp n)).
  split; [apply chunks_closed_form|]. split; [|split].
  - rewrite planned_samples_windows.
    pose proof (Z.div_mod n interval ltac:(lia)) as Hdm.
    pose proof (Z.mod_pos_bound n interval Hp) as Hb.
    unfold nloops, last_nsamp.
    destruct (Z.ltb_spec interval n) as [E1|E1];
      destruct (Z.eqb_spec (n mod interval) 0) as [E2|E2].
    + destruct Hcase; lia.
    + assert (0 <= n / interval) by (apply Z.div_pos; lia).
      rewrite Z2Nat.id by lia. lia.
    + assert (n = interval).
      { assert (n / interval = 1 \/ n / interval <= 0 \/ 2 <= n / interval) as [|[|]] by lia; nia. }
      simpl. lia.
    + assert (n < interval).
      { destruct (Z.eq_dec n interval) as [->|]; [|lia].
        rewrite Z_mod_same_full in E2. lia. }
      rewrite Z.mod_small by lia. simpl. lia.
  - apply (contiguous_windows _ _ 0).
  - apply (disjoint_windows _ _ 0).
Qed.

(** X2: on a multiple of the window beyond the first window the plan asks for
    one window more than the stream holds. *)
Lemma chunks_exact_multiple n :
  interval < n ->
  n mod interval = 0 ->
  exists cs, chunks n = Ok cs /\ planned_samples cs = n + interval.
Proof.
  intros Hn Hm. pose proof interval_pos as Hp.
  exists (windows_then (Z.to_nat (nloops n - 1)) (last_nsamp n)).
  split; [apply chunks_closed_form|].
  rewrite planned_samples_windows.
  pose proof (Z.div_mod n interval ltac:(lia)) as Hdm.
  unfold nloops, last_nsamp.
  apply Z.ltb_lt in Hn. rewrite Hn. apply Z.ltb_lt in Hn.
  rewrite Hm. simpl (0 =? 0). cbv iota.
  assert (0 <= n / interval) by (apply Z.div_pos; lia).
  rewrite Z2Nat.id by lia. lia.
Qed.

(** ** Decimal literals: [float] accepts what the header adapter formats *)

Lemma app_cons ch (a b : string) : String ch a +:+ b = String ch (a +:+ b).
Proof. reflexivity. Qed.

Lemma app_empty (b : string) : EmptyString +:+ b = b.
Proof. reflexivity. Qed.

Lemma string_app_assoc (a b c : string) : (a +:+ b) +:+ c = a +:+ (b +:+ c).
Proof.
  induction a as [|ch a IH]; [reflexivity|].
  rewrite !app_cons, IH. reflexivity.
Qed.

Lemma digit_not_point ch :
  is_Some (Py.digit_of_ascii ch) -> Ascii.eqb ch "." = false.
Proof.
  destruct ch as [[] [] [] [] [] [] [] []]; intros [d Hd];
    try discriminate Hd; reflexivity.
Qed.

Lemma digit_not_minus ch :
  is_Some (Py.digit_of_ascii ch) -> Ascii.eqb ch "-" = false.
Proof.
  destruct ch as [[] [] [] [] [] [] [] []]; intros [d Hd];
    try discriminate Hd; reflexivity.
Qed.

Lemma all_digits_app a b : all_digits a -> all_digits b -> all_digits (a +:+ b).
Proof.
  induction a as [|ch a IH]; [auto|].
  rewrite app_cons. simpl. intros [Hc Ha] Hb. auto.
Qed.

Lemma all_digits_uint d : all_digits (NilEmpty.string_of_uint d).
Proof.
  induction d; simpl; auto; (split; [eexists; reflexivity | assumption]).
Qed.

Lemma all_digits_digits n : all_digits (Py.digits n).
Proof. apply all_digits_uint. Qed.

Lemma all_digits_zeros k : all_digits (string_of_list_ascii (repeat "0"%char k)).
Proof.
  induction k as [|k IH]; simpl; [exact I|].
  split; [eexists; reflexivity | exact IH].
Qed.

Lemma all_digits_zfill w s : all_digits s -> all_digits (Py.zfill w s).
Proof. intros Hs. apply all_digits_app; [apply all_digits_zeros | exact Hs]. Qed.

Lemma zfill_nonempty w s : Py.zfill (S w) s <> EmptyString.
Proof.
  unfold Py.zfill. destruct s as [|ch s]; simpl; [discriminate|].
  destruct (w - String.length s)%nat; simpl; discriminate.
Qed.

Lemma scan_digits_end s :
  all_digits s ->
  forall mant seen frac,
    seen = true \/ s <> EmptyString ->
    is_Some (Py.scan s mant seen frac).
Proof.
  induction s as [|ch s IH]; simpl; intros Hs mant seen frac Hne.
  - destruct Hne as [-> | Hne]; [eexists; reflexivity | congruence].
  - destruct Hs as [Hc Hs]. rewrite (digit_not_point _ Hc).
    destruct Hc as [d ->]. apply IH; auto.
Qed.

Lemma scan_literal s1 s2 :
  all_digits s1 -> all_digits s2 -> s2 <> EmptyString ->
  forall mant seen, is_Some (Py.scan (s1 +:+ "." +:+ s2) mant seen None).
Proof.
  intros H1 H2 Hne. induction s1 as [|ch s1 IH]; intros mant seen.
  - rewrite app_empty, app_cons, app_empty. simpl.
    apply scan_digits_end; auto.
  - rewrite app_cons. simpl. destruct H1 as [Hc H1].
    rewrite (digit_not_point _ Hc).
    destruct Hc as [d ->]. simpl. apply IH. exact H1.
Qed.

Lemma unsigned_literal s1 s2 :
  all_digits s1 -> all_digits s2 -> s2 <> EmptyString ->
  is_Some (Py.unsigned_of_string (s1 +:+ "." +:+ s2)).
Proof.
  intros H1 H2 Hne. unfold Py.unsigned_of_string.
  destruct (scan_literal s1 s2 H1 H2 Hne 0 false) as [[mant k] ->].
  eexists; reflexivity.
Qed.

Lemma float_of_literal (neg : bool) s1 s2 :
  all_digits s1 -> all_digits s2 -> s2 <> EmptyString ->
  exists q, Py.float_of_string
              ((if neg then "-" else EmptyString) +:+ s1 +:+ "." +:+ s2) = Ok q.
Proof.
  intros H1 H2 Hne. unfold Py.float_of_string.
  destruct (unsigned_literal s1 s2 H1 H2 Hne) as [q Hq].
  destruct neg.
  - rewrite app_cons, app_empty. simpl.
    rewrite Hq. eexists; reflexivity.
  - rewrite app_empty. destruct s1 as [|ch s1].
    + rewrite app_empty, app_cons, app_empty in *. simpl.
      rewrite Hq. eexists; reflexivity.
    + rewrite app_cons in *. destruct H1 as [Hc H1]. simpl.
      rewrite (digit_not_minus _ Hc).
      rewrite Hq. eexists; reflexivity.
Qed.

(** Every packed coordinate literal parses: the conversion of lines 74-75
    cannot raise. *)
Lemma packed_literal_parses t :
  exists q, Py.float_of_string (packed_literal t) = Ok q.
Proof.
  destruct t as [[t0 t1] t2]. unfold packed_literal, Py.format_07_4f.
  set (r := Py.round_half_even _).
  set (fp := Py.zfill 4 (Py.digits (r mod 10000))).
  set (b := Py.format_02d (Z.abs (Py.int_of_float t1))).
  assert (Hb : all_digits b).
  { unfold b, Py.format_02d.
    destruct (Z.ltb_spec (Z.abs (Py.int_of_float t1)) 0); [lia|].
    apply all_digits_zfill, all_digits_digits. }
  assert (Hfp : all_digits fp) by apply all_digits_zfill, all_digits_digits.
  assert (Hne : fp <> EmptyString) by apply zfill_nonempty.
  unfold Py.zfill at 1.
  set (zeros := string_of_list_ascii _).
  assert (Hz : all_digits zeros) by apply all_digits_zeros.
  pose proof (all_digits_digits (r / 10000)) as Hip.
  unfold Py.format_02d at 1.
  destruct (Py.int_of_float t0 <? 0).
  - set (a := Py.zfill 1 _).
    assert (Ha : all_digits a) by apply all_digits_zfill, all_digits_digits.
    destruct (float_of_literal true (a +:+ b +:+ zeros +:+ Py.digits (r / 10000)) fp)
      as [q Hq]; auto using all_digits_app.
    exists q. rewrite <- Hq. f_equal.
    rewrite !string_app_assoc. reflexivity.
  - set (a := Py.zfill 2 _).
    assert (Ha : all_digits a) by apply all_digits_zfill, all_digits_digits.
    destruct (float_of_literal false (a +:+ b +:+ zeros +:+ Py.digits (r / 10000)) fp)
      as [q Hq]; auto using all_digits_app.
    exists q. rewrite <- Hq. f_equal.
    rewrite !string_app_assoc. reflexivity.
Qed.

(** ** Header adapter and writer: how the calls run *)

Section Writer.

Context {sample dtype : Type}.
Variable tobytes : sample -> list byte.
Variable header_bytes : SigprocFile -> list byte.

Implicit Types (w : world sample) (y : Your sample dtype)
  (data : @spectra sample) (p : string).

Lemma logged_logged w es es' :
  logged (logged w es) es' = logged w (es ++ es').
Proof. unfold logged. simpl. rewrite <- app_assoc. reflexivity. Qed.

Lemma stored_logged w es p content es' :
  stored (logged w es) p content es' = stored w p content (es ++ es').
Proof. unfold stored, logged. simpl. rewrite <- app_assoc. reflexivity. Qed.

(** Header construction records one call and then either returns a
    header or raises; what it does depends on its arguments only, and
    it never raises [FileNotFoundError]. *)
Lemma make_sigproc_obj_run p y n cf :
  exists o, o <> Raise FileNotFoundError /\
    forall w, make_sigproc_obj p y n cf w = (logged w [GenerateSigproc], o).
Proof.
  unfold make_sigproc_obj, bind, emit, lift, ret, logged.
  destruct (packed_literal_parses (ra_hms (hdr_ra_deg (your_header y)))) as [raj ->].
  destruct (packed_literal_parses (dec_dms (hdr_dec_deg (your_header y)))) as [dej ->].
  destruct cf as [cf|].
  - unfold Py.getitem. destruct (cf !! 1%nat) as [f|].
    + eexists. split; [|intros w; reflexivity]. discriminate.
    + exists (Raise IndexError). split; [discriminate | reflexivity].
  - exists (Raise TypeError). split; [discriminate | reflexivity].
Qed.

Lemma make_sigproc_obj_ok p y n (cf : list Q) f w :
  cf !! 1%nat = Some f ->
  exists h, make_sigproc_obj p y n (Some cf) w = (logged w [GenerateSigproc], Ok h)
    /\ nchans h = n /\ fch1 h = f /\ rawdatafile h = p
    /\ foff h = hdr_foff (your_header y)
    /\ Py.float_of_string
         (packed_literal (ra_hms (hdr_ra_deg (your_header y)))) = Ok (src_raj h)
    /\ Py.float_of_string
         (packed_literal (dec_dms (hdr_dec_deg (your_header y)))) = Ok (src_dej h).
Proof.
  intros Hf. unfold make_sigproc_obj, bind, emit, lift, ret, logged, Py.getitem.
  rewrite Hf.
  destruct (packed_literal_parses (ra_hms (hdr_ra_deg (your_header y)))) as [raj ->].
  destruct (packed_literal_parses (dec_dms (hdr_dec_deg (your_header y)))) as [dej ->].
  eexists. split; [reflexivity|]. simpl. repeat split; reflexivity.
Qed.

Lemma make_sigproc_obj_short p y n (cf : list Q) w :
  (length cf <= 1)%nat ->
  make_sigproc_obj p y n (Some cf) w = (logged w [GenerateSigproc], Raise IndexError).
Proof.
  intros Hlen. unfold make_sigproc_obj, bind, emit, lift, logged, Py.getitem.
  rewrite (lookup_ge_None_2 cf 1) by lia. reflexivity.
Qed.

Lemma make_sigproc_obj_none p y n w :
  make_sigproc_obj p y n None w = (logged w [GenerateSigproc], Raise TypeError).
Proof. reflexivity. Qed.

(** A header is constructed exactly when the slice has two entries. *)
Lemma make_sigproc_obj_ok_inv p y n cf w w' h :
  make_sigproc_obj p y n cf w = (w', Ok h) ->
  exists l, cf = Some l /\ (2 <= length l)%nat /\ l !! 1%nat = Some (fch1 h)
    /\ w' = logged w [GenerateSigproc].
Proof.
  intros Hrun. destruct cf as [l|].
  - destruct (l !! 1%nat) as [f|] eqn:Hf.
    + destruct (make_sigproc_obj_ok p y n l f w Hf) as (h' & Hh & _ & Hfch & _).
      rewrite Hh in Hrun. injection Hrun as <- <-.
      exists l. repeat split; try congruence.
      apply lookup_lt_Some in Hf. lia.
    + apply lookup_ge_None_1 in Hf.
      rewrite make_sigproc_obj_short in Hrun by lia. discriminate.
  - rewrite make_sigproc_obj_none in Hrun. discriminate.
Qed.

Lemma create_with_header_ok data y n cf p w h :
  make_sigproc_obj p y n cf w = (logged w [GenerateSigproc], Ok h) ->
  create_with_header tobytes header_bytes data y n cf p w
  = (stored w p (header_bytes h ++ data_bytes tobytes data)
       [GenerateSigproc; WriteHeader h p; AppendSpectra data p], Ok tt).
Proof.
  intros Hh. unfold create_with_header, bind. rewrite Hh.
  unfold write_header, append_spectra, bind, emit, stored, logged. simpl.
  rewrite lookup_insert_eq, insert_insert_eq. simpl.
  rewrite <- !app_assoc. reflexivity.
Qed.

Lemma create_with_header_raise data y n cf p w e :
  make_sigproc_obj p y n cf w = (logged w [GenerateSigproc], Raise e) ->
  create_with_header tobytes header_bytes data y n cf p w
  = (logged w [GenerateSigproc], Raise e).
Proof.
  intros Hh. unfold create_with_header, bind. rewrite Hh. reflexivity.
Qed.

Lemma create_with_header_not_missing data y n cf p w :
  snd (create_with_header tobytes header_bytes data y n cf p w)
  <> Raise FileNotFoundError.
Proof.
  destruct (make_sigproc_obj_run p y n cf) as (o & Ho & Hrun).
  destruct o as [h|e].
  - rewrite (create_with_header_ok _ _ _ _ _ _ h) by apply Hrun. discriminate.
  - rewrite (create_with_header_raise _ _ _ _ _ _ e) by apply Hrun.
    simpl. intros Heq. apply Ho. congruence.
Qed.

(** The three branches of the writer. *)
Lemma write_fil_append data y n cf filename outdir w content :
  let p := output_path y filename outdir in
  files w !! p = Some content ->
  8192 < Z.of_nat (length content) ->
  write_fil tobytes header_bytes data y n cf filename outdir w
  = (stored w p (content ++ data_bytes tobytes data)
       [TryWrite p; Stat p; AppendSpectra data p], Ok tt).
Proof.
  intros p Hfile Hsize.
  unfold write_fil, try_except_FileNotFoundError, os_stat_size, bind, emit.
  fold p. simpl. rewrite Hfile.
  apply Z.ltb_lt in Hsize. rewrite Hsize.
  unfold append_spectra, bind, emit, stored. simpl. rewrite Hfile. simpl.
  rewrite <- !app_assoc. reflexivity.
Qed.

Lemma write_fil_rewrite data y n cf filename outdir w content :
  let p := output_path y filename outdir in
  files w !! p = Some content ->
  Z.of_nat (length content) <= 8192 ->
  write_fil tobytes header_bytes data y n cf filename outdir w
  = create_with_header tobytes header_bytes data y n cf p
      (logged w [TryWrite p; Stat p]).
Proof.
  intros p Hfile Hsize. apply Z.ltb_ge in Hsize.
  destruct (make_sigproc_obj_run p y n cf) as (o & Ho & Hrun).
  unfold write_fil, create_with_header, try_except_FileNotFoundError,
    os_stat_size, bind, emit.
  fold p. cbn [files trace]. rewrite Hfile, Hsize, !Hrun.
  unfold logged. cbn [files trace]. rewrite <- !app_assoc. cbn [app].
  destruct o as [h|e].
  - unfold write_header, append_spectra, bind, emit.
    cbn [files trace]. reflexivity.
  - destruct e; try reflexivity. congruence.
Qed.

Lemma write_fil_absent data y n cf filename outdir w :
  let p := output_path y filename outdir in
  files w !! p = None ->
  write_fil tobytes header_bytes data y n cf filename outdir w
  = create_with_header tobytes header_bytes data y n cf p
      (logged w [TryWrite p; Stat p]).
Proof.
  intros p Hfile.
  unfold write_fil, create_with_header, try_except_FileNotFoundError,
    os_stat_size, bind, emit.
  fold p. cbn [files trace]. rewrite Hfile.
  unfold logged. cbn [files trace]. rewrite <- !app_assoc. reflexivity.
Qed.

End Writer.

(** ** Slices *)

Lemma slice_bound_range len i :
  0 <= len -> 0 <= Py.slice_bound len i <= len.
Proof.
  intros Hlen. unfold Py.slice_bound. destruct (Z.ltb_spec i 0); lia.
Qed.

Lemma slice_length {A} (l : list A) lo hi :
  length (Py.slice l lo hi)
  = Z.to_nat (Py.slice_bound (Z.of_nat (length l)) hi
              - Py.slice_bound (Z.of_nat (length l)) lo).
Proof.
  unfold Py.slice. rewrite length_take, length_drop.
  pose proof (slice_bound_range (Z.of_nat (length l)) lo ltac:(lia)).
  pose proof (slice_bound_range (Z.of_nat (length l)) hi ltac:(lia)).
  lia.
Qed.

Lemma slice_length_same {A B} (l : list A) (l' : list B) lo hi :
  length l = length l' ->
  length (Py.slice l lo hi) = length (Py.slice l' lo hi).
Proof. intros Hlen. rewrite !slice_length, Hlen. reflexivity. Qed.

Lemma slice_width_one {A} (l : list A) a :
  (length (Py.slice l a (a + 1)) <= 1)%nat.
Proof.
  rewrite slice_length. unfold Py.slice_bound.
  destruct (Z.ltb_spec a 0); destruct (Z.ltb_spec (a + 1) 0); lia.
Qed.

Lemma slice_clamped {A} (l : list A) a b :
  0 <= a -> Z.of_nat (length l) <= b ->
  Py.slice l a b = drop (Z.to_nat a) l.
Proof.
  intros Ha Hb. unfold Py.slice, Py.slice_bound.
  destruct (Z.ltb_spec a 0); [lia|]. destruct (Z.ltb_spec b 0); [lia|].
  rewrite (Z.min_r b) by lia.
  destruct (Z.le_gt_cases a (Z.of_nat (length l))).
  - rewrite Z.min_l by lia. apply take_ge. rewrite length_drop. lia.
  - rewrite Z.min_r by lia. rewrite !drop_ge by lia. apply take_nil.
Qed.



(** ** Coordinates: equal angles give the same components *)

Lemma sexagesimal_proper x x' : (x == x')%Q -> sexagesimal x = sexagesimal x'.
Proof.
  intros Hx. unfold sexagesimal.
  assert (Ha : (Qabs x == Qabs x')%Q) by (rewrite Hx; reflexivity).
  assert (Hs : Qle_bool 0 x = Qle_bool 0 x') by (rewrite Hx; reflexivity).
  rewrite Hs, (Qfloor_comp _ _ Ha).
  set (d := Qfloor (Qabs x')).
  assert (Hm : ((Qabs x - inject_Z d) * inject_Z 60
                == (Qabs x' - inject_Z d) * inject_Z 60)%Q)
    by (rewrite Ha; reflexivity).
  rewrite (Qfloor_comp _ _ Hm).
  f_equal. apply Qred_complete. rewrite Hm. reflexivity.
Qed.

Lemma ra_hms_proper x x' : (x == x')%Q -> ra_hms x = ra_hms x'.
Proof.
  intros Hx. unfold ra_hms, wrap_360. apply sexagesimal_proper.
  assert (Hf : Qfloor (x / inject_Z 360) = Qfloor (x' / inject_Z 360))
    by (apply Qfloor_comp; rewrite Hx; reflexivity).
  rewrite Hf, Hx. reflexivity.
Qed.

Lemma dec_dms_proper x x' : (x == x')%Q -> dec_dms x = dec_dms x'.
Proof. apply sexagesimal_proper. Qed.

(** * The claims of the specification *)

(** ** Chunk planner *)

(** C1, the code at a failing input.  The specification asks that for
    every sample count N > 0 the planned chunks have increasing starts and
    sizes that sum to N.  For N = 2 * 98304, an exact multiple of the
    window, the planner returns three full windows: the sizes sum to
    3 * 98304, one window more than the stream holds. *)
Theorem planner_overshoots_on_exact_multiple :
  chunks (2 * interval)
  = Ok [(0, interval); (interval, interval); (2 * interval, interval)]
  /\ planned_samples [(0, interval); (interval, interval); (2 * interval, interval)]
     = 3 * interval
  /\ 3 * interval <> 2 * interval.
Proof.
  split; [reflexivity|]. split; [reflexivity|]. rewrite interval_eq. lia.
Qed.

(** C6 as stated fails: for the sample count 0, which is within the
    window, the single planned chunk has the size of a full window and
    not the size 0. *)
Lemma single_chunk_fails_at_zero :
  ~ (forall n, n <= interval -> chunks n = Ok [(0, n)]).
Proof.
  intros H. specialize (H 0). rewrite interval_eq in H.
  specialize (H ltac:(lia)). vm_compute in H. discriminate H.
Qed.

(** C6, amended: for every sample count N with 0 < N <= 98304 the planner
    yields exactly one chunk, starting at offset 0, of size N. *)
Theorem single_chunk_within_window n :
  0 < n -> n <= interval -> chunks n = Ok [(0, n)].
Proof.
  intros Hpos Hle. pose proof interval_pos as Hp.
  rewrite chunks_closed_form. unfold nloops, last_nsamp.
  destruct (Z.ltb_spec interval n) as [|_]; [lia|].
  change (Z.to_nat (1 - 1)) with 0%nat. unfold windows_then. simpl.
  destruct (Z.eqb_spec (n mod interval) 0) as [E|E].
  - assert (Hn : n = interval).
    { destruct (Z.eq_dec n interval) as [|Hne]; [assumption|].
      rewrite Z.mod_small in E by lia. lia. }
    rewrite Hn. reflexivity.
  - assert (n < interval).
    { destruct (Z.eq_dec n interval) as [->|]; [|lia].
      rewrite Z_mod_same_full in E. lia. }
    rewrite Z.mod_small by lia. reflexivity.
Qed.

Lemma single_chunk_within_window_witness :
  0 < 5 /\ 5 <= interval /\ chunks 5 = Ok [(0, 5)].
Proof.
  assert (H1 : 0 < 5) by lia.
  assert (H2 : 5 <= interval) by (rewrite interval_eq; lia).
  split; [exact H1|]. split; [exact H2|].
  exact (single_chunk_within_window 5 H1 H2).
Defined.

(** ** Channel window and header *)

(** C2, the code at a failing input.  The specification asks that the
    header's first-channel frequency be the source frequency at index
    min_c.  For the band 1500, 1499, 1498, 1497 MHz and the window
    [0, 4) the header written by the conversion has channel count 4 but
    first-channel frequency 1499, the frequency at index min_c + 1. *)
Theorem header_fch1_is_second_channel :
  let y := Example.stream 3 Example.band in
  let run := convert Example.astype Example.tobytes Example.header_bytes
               y (Some [0; 4]) (Some "out"%string) None Example.empty_disk in
  channel_window y (Some [0; 4]) = (0, 4)
  /\ snd run = Ok tt
  /\ exists h,
       trace (fst run) !! 4%nat = Some (WriteHeader h Example.out_path)
       /\ nchans h = Some (4 - 0)
       /\ fch1 h = inject_Z 1499
       /\ chan_freqs y !! 0%nat = Some (inject_Z 1500)
       /\ fch1 h <> inject_Z 1500.
Proof.
  cbv zeta. split; [reflexivity|]. split; [vm_compute; reflexivity|].
  eexists. split; [vm_compute; reflexivity|].
  repeat split. discriminate.
Qed.

(** C10: when the effective channel window has width exactly 1, header
    construction raises [IndexError], because the first-channel frequency
    is read at index 1 of the sliced frequency array; every header that
    is constructed comes from a slice of at least two channels. *)
Theorem single_channel_window_raises {sample dtype}
    (y : Your sample dtype) c min_c p n (w : world sample) :
  channel_window y c = (min_c, min_c + 1) ->
  make_sigproc_obj p y n (Some (retained_freqs y c)) w
  = (logged w [GenerateSigproc], Raise IndexError)
  /\ forall n' cf' (w1 w2 : world sample) h,
       make_sigproc_obj p y n' cf' w1 = (w2, Ok h) ->
       exists l, cf' = Some l /\ (2 <= length l)%nat.
Proof.
  intros Hwin. split.
  - apply make_sigproc_obj_short. unfold retained_freqs. rewrite Hwin.
    apply slice_width_one.
  - intros n' cf' w1 w2 h Hrun.
    destruct (make_sigproc_obj_ok_inv _ _ _ _ _ _ _ Hrun) as (l & -> & Hlen & _).
    exists l. split; [reflexivity | exact Hlen].
Qed.

Lemma single_channel_window_raises_witness :
  let y := Example.stream 3 Example.band in
  channel_window y (Some [2; 3]) = (2, 2 + 1)
  /\ make_sigproc_obj Example.out_path y (Some 1)
       (Some (retained_freqs y (Some [2; 3]))) Example.empty_disk
     = (logged Example.empty_disk [GenerateSigproc], Raise IndexError).
Proof.
  cbv zeta.
  assert (H : channel_window (Example.stream 3 Example.band) (Some [2; 3])
              = (2, 2 + 1)) by reflexivity.
  split; [exact H|].
  exact (proj1 (single_channel_window_raises (Example.stream 3 Example.band)
                  (Some [2; 3]) 2 Example.out_path (Some 1) Example.empty_disk H)).
Defined.

(** C8: for a right ascension of 180.0 degrees and a declination of -45.5
    degrees the packed literals are "120000.0000" (12h 00m 00s) and
    "-453000.0000" (-45d 30m 00s): the sign sits on the leading component
    only, minutes and seconds are magnitudes; a constructed header holds
    src_raj = 120000.0 and src_dej = -453000.0. *)
Theorem packed_coordinates_of_180_and_minus_45_5 {sample dtype}
    p (y : Your sample dtype) n cf (w w' : world sample) h :
  (hdr_ra_deg (your_header y) == inject_Z 180)%Q ->
  (hdr_dec_deg (your_header y) == -91 # 2)%Q ->
  make_sigproc_obj p y n cf w = (w', Ok h) ->
  packed_literal (ra_hms (hdr_ra_deg (your_header y))) = "120000.0000"%string
  /\ packed_literal (dec_dms (hdr_dec_deg (your_header y))) = "-453000.0000"%string
  /\ src_raj h = inject_Z 120000
  /\ src_dej h = inject_Z (-453000).
Proof.
  intros Hra Hdec Hrun.
  rewrite (ra_hms_proper _ _ Hra), (dec_dms_proper _ _ Hdec).
  split; [reflexivity|]. split; [reflexivity|].
  destruct (make_sigproc_obj_ok_inv _ _ _ _ _ _ _ Hrun) as (l & -> & _ & Hf & ->).
  destruct (make_sigproc_obj_ok p y n l _ w Hf) as (h' & Hh & _ & _ & _ & _ & Hraj & Hdej).
  rewrite Hh in Hrun. injection Hrun as ->.
  rewrite (ra_hms_proper _ _ Hra) in Hraj.
  rewrite (dec_dms_proper _ _ Hdec) in Hdej.
  assert (Era : Py.float_of_string (packed_literal (ra_hms (inject_Z 180)))
                = Ok (inject_Z 120000)) by (vm_compute; reflexivity).
  assert (Edec : Py.float_of_string (packed_literal (dec_dms (-91 # 2)))
                 = Ok (inject_Z (-453000))) by (vm_compute; reflexivity).
  rewrite Era in Hraj. rewrite Edec in Hdej.
  split; congruence.
Qed.

Lemma packed_coordinates_of_180_and_minus_45_5_witness :
  let y := Example.stream 3 Example.band in
  (hdr_ra_deg (your_header y) == inject_Z 180)%Q
  /\ (hdr_dec_deg (your_header y) == -91 # 2)%Q
  /\ make_sigproc_obj Example.out_path y (Some 4) (Some Example.band)
       Example.empty_disk
     = (logged Example.empty_disk [GenerateSigproc], Ok Example.band_header)
  /\ src_raj Example.band_header = inject_Z 120000
  /\ src_dej Example.band_header = inject_Z (-453000).
Proof.
  cbv zeta.
  assert (Hra : (hdr_ra_deg (your_header (Example.stream 3 Example.band))
                 == inject_Z 180)%Q) by reflexivity.
  assert (Hdec : (hdr_dec_deg (your_header (Example.stream 3 Example.band))
                  == -91 # 2)%Q) by reflexivity.
  assert (Hrun : make_sigproc_obj Example.out_path
                   (Example.stream 3 Example.band) (Some 4) (Some Example.band)
                   Example.empty_disk
                 = (logged Example.empty_disk [GenerateSigproc],
                    Ok Example.band_header)) by (vm_compute; reflexivity).
  split; [exact Hra|]. split; [exact Hdec|]. split; [exact Hrun|].
  exact (proj2 (proj2 (packed_coordinates_of_180_and_minus_45_5
                         _ _ _ _ _ _ _ Hra Hdec Hrun))).
Defined.

(** C9 as stated fails: for the window [0, 10) on a band of 4 channels,
    whose upper bound lies beyond the band, slicing keeps the 4 channels
    and the conversion completes without raising. *)
Lemma out_of_range_window_does_not_raise :
  let y := Example.stream 3 Example.band in
  let c := Some [0; 10] in
  Z.of_nat (length (chan_freqs y)) < snd (channel_window y c)
  /\ retained_freqs y c = chan_freqs y
  /\ snd (convert Example.astype Example.tobytes Example.header_bytes
            y c (Some "out"%string) None Example.empty_disk) = Ok tt.
Proof.
  cbv zeta. split; [vm_compute; reflexivity|].
  split; [reflexivity|]. vm_compute. reflexivity.
Qed.

(** C9, amended: a requested channel window that reaches beyond the band
    (0 <= min_c <= max_c, max_c greater than the number of channels) is
    not validated, and the channel-slicing step does not raise: it keeps
    the channels from min_c to the end of the band, in the frequency
    array and in every spectrum alike. *)
Theorem out_of_range_window_is_clamped {sample dtype}
    (y : Your sample dtype) (a b : Z) :
  0 <= a <= b ->
  Z.of_nat (length (chan_freqs y)) < b ->
  channel_window y (Some [a; b]) = (a, b)
  /\ retained_freqs y (Some [a; b]) = drop (Z.to_nat a) (chan_freqs y)
  /\ forall row : list sample,
       length row = length (chan_freqs y) ->
       Py.slice row a b = drop (Z.to_nat a) row.
Proof.
  intros Hab Hb.
  assert (Hwin : channel_window y (Some [a; b]) = (a, b)).
  { unfold channel_window, Py.np_min, Py.np_max. simpl.
    rewrite Z.min_l, Z.max_r by lia. reflexivity. }
  split; [exact Hwin|]. split.
  - unfold retained_freqs. rewrite Hwin. simpl. apply slice_clamped; lia.
  - intros row Hrow. apply slice_clamped; lia.
Qed.

Lemma out_of_range_window_is_clamped_witness :
  let y := Example.stream 3 Example.band in
  0 <= 1 <= 10
  /\ Z.of_nat (length (chan_freqs y)) < 10
  /\ retained_freqs y (Some [1; 10]) = drop (Z.to_nat 1) (chan_freqs y).
Proof.
  cbv zeta.
  assert (H1 : 0 <= 1 <= 10) by lia.
  assert (H2 : Z.of_nat (length (chan_freqs (Example.stream 3 Example.band))) < 10)
    by (vm_compute; reflexivity).
  split; [exact H1|]. split; [exact H2|].
  exact (proj1 (proj2 (out_of_range_window_is_clamped
                         (Example.stream 3 Example.band) 1 10 H1 H2))).
Defined.

(** ** Append-or-create writer and streaming converter *)

Section Claims.

Context {sample dtype : Type}.
Variable astype : dtype -> sample -> sample.
Variable tobytes : sample -> list byte.
Variable header_bytes : SigprocFile -> list byte.

Implicit Types (w : world sample) (y : Your sample dtype)
  (data : @spectra sample) (p : string).

Lemma bind_ok {A B} (m : M A) (k : A -> M B) w w' a :
  m w = (w', Ok a) -> bind m k w = k a w'.
Proof. intros Hm. unfold bind. rewrite Hm. reflexivity. Qed.

Lemma emit_run (e : event sample) w : emit e w = (logged w [e], Ok tt).
Proof. reflexivity. Qed.

Lemma stored_stored w p x es x' es' :
  stored (stored w p x es) p x' es' = stored w p x' (es ++ es').
Proof.
  unfold stored. simpl. rewrite insert_insert_eq, <- app_assoc. reflexivity.
Qed.


Lemma files_stored w p x es : files (stored w p x es) !! p = Some x.
Proof. unfold stored. simpl. apply lookup_insert_eq. Qed.






Lemma convert_unfold y c outdir filfile :
  convert astype tobytes header_bytes y c outdir filfile
  = bind (lift (chunks (hdr_native_nspectra (your_header y))))
      (fun plan =>
         for_each plan (fun '(nstart, nsamp) =>
           bind (emit (GetData nstart nsamp)) (fun _ =>
             write_fil tobytes header_bytes (chunk_data astype y c nstart nsamp) y
               (Some (Z.of_nat (length (retained_freqs y c))))
               (Some (retained_freqs y c)) filfile outdir))).
Proof.
  unfold convert, retained_freqs, chunk_data.
  destruct (channel_window y c) as [min_c max_c]. reflexivity.
Qed.



Lemma chunk_data_shape y c nstart nsamp :
  reads_as_requested y ->
  length (chunk_data astype y c nstart nsamp) = Z.to_nat nsamp
  /\ Forall (fun row => length row = length (retained_freqs y c))
            (chunk_data astype y c nstart nsamp).
Proof.
  intros Hread. destruct (Hread nstart nsamp) as [Hn Hrows].
  unfold chunk_data. split.
  - rewrite !length_map. exact Hn.
  - apply Forall_map, Forall_map. eapply Forall_impl; [exact Hrows|].
    intros row Hrow. simpl. unfold retained_freqs.
    apply slice_length_same. rewrite length_map. exact Hrow.
Qed.


End Claims.

(** ** The writer and the converter on the synthetic stream *)



Lemma example_reads_as_requested n freqs :
  reads_as_requested (Example.stream n freqs).
Proof.
  intros nstart nsamp. simpl. split.
  - rewrite length_map, length_seq. reflexivity.
  - apply Forall_map, Forall_forall. intros i _. simpl.
    rewrite length_map, length_seq. reflexivity.
Qed.






(** * Further properties of the code *)

(** ** Chunk planner, for every sample count *)

Lemma last_nsamp_range n : 0 < last_nsamp n <= interval.
Proof.
  pose proof interval_pos as Hp. unfold last_nsamp.
  destruct (Z.eqb_spec (n mod interval) 0) as [E|E]; [lia|].
  pose proof (Z.mod_pos_bound n interval Hp). lia.
Qed.

Lemma windows_then_lookup j last (i : nat) s k :
  windows_then j last !! i = Some (s, k) ->
  s = Z.of_nat i * interval
  /\ ((i < j)%nat /\ k = interval \/ i = j /\ k = last).
Proof.
  unfold windows_then. intros Hl.
  destruct (Nat.lt_ge_cases i j) as [Hlt|Hge].
  - rewrite lookup_app_l in Hl by (rewrite length_map, length_seq; exact Hlt).
    rewrite list_lookup_fmap, lookup_seq_lt in Hl by exact Hlt.
    simpl in Hl. injection Hl as <- <-. split; [reflexivity|]. left. auto.
  - rewrite lookup_app_r in Hl by (rewrite length_map, length_seq; exact Hge).
    rewrite length_map, length_seq in Hl.
    destruct (i - j)%nat as [|d] eqn:Hd; simpl in Hl; [|discriminate Hl].
    injection Hl as <- <-. assert (i = j) by lia. subst i.
    split; [reflexivity|]. right. auto.
Qed.

(** X3: the planner never raises and never returns an empty plan: it plans
    [nloops] chunks, chunk [i] starts at [i * interval], and every chunk
    asks for at least one and at most [interval] samples, whatever the
    sample count is. *)
Theorem chunks_shape n :
  exists cs,
    chunks n = Ok cs
    /\ length cs = Z.to_nat (nloops n)
    /\ (1 <= length cs)%nat
    /\ forall (i : nat) s k,
         cs !! i = Some (s, k) ->
         s = Z.of_nat i * interval /\ 0 < k <= interval.
Proof.
  pose proof (nloops_pos n) as Hk. pose proof interval_pos as Hp.
  exists (windows_then (Z.to_nat (nloops n - 1)) (last_nsamp n)).
  split; [apply chunks_closed_form|].
  assert (Hlen : length (windows_then (Z.to_nat (nloops n - 1)) (last_nsamp n))
                 = Z.to_nat (nloops n)).
  { unfold windows_then. rewrite length_app, length_map, length_seq. simpl. lia. }
  split; [exact Hlen|]. split; [lia|].
  intros i s k Hl. apply windows_then_lookup in Hl as [Hs [[_ ->] | [_ ->]]].
  - split; [exact Hs | lia].
  - split; [exact Hs | apply last_nsamp_range].
Qed.

(** ** Channel window *)

(** X4: the two bounds of a requested window may come in either order: the
    smaller is the lower bound and the larger the upper bound; for
    bounds within the band the number of retained channels is their
    distance. *)
Theorem channel_window_unordered {sample dtype} (y : Your sample dtype) a b :
  channel_window y (Some [a; b]) = (Z.min a b, Z.max a b)
  /\ channel_window y (Some [b; a]) = channel_window y (Some [a; b])
  /\ (0 <= a <= Z.of_nat (length (chan_freqs y)) ->
      0 <= b <= Z.of_nat (length (chan_freqs y)) ->
      Z.of_nat (length (retained_freqs y (Some [a; b]))) = Z.abs (b - a)).
Proof.
  assert (H1 : forall u v, channel_window y (Some [u; v]) = (Z.min u v, Z.max u v))
    by reflexivity.
  split; [apply H1|]. split.
  - rewrite !H1, Z.min_comm, Z.max_comm. reflexivity.
  - intros Ha Hb. unfold retained_freqs. rewrite H1. simpl.
    rewrite slice_length. unfold Py.slice_bound.
    destruct (Z.ltb_spec (Z.min a b) 0); destruct (Z.ltb_spec (Z.max a b) 0); lia.
Qed.

Lemma channel_window_unordered_witness :
  let y := Example.stream 3 Example.band in
  0 <= 3 <= Z.of_nat (length (chan_freqs y))
  /\ 0 <= 1 <= Z.of_nat (length (chan_freqs y))
  /\ Z.of_nat (length (retained_freqs y (Some [3; 1]))) = Z.abs (1 - 3).
Proof.
  cbv zeta.
  assert (H1 : 0 <= 3 <= Z.of_nat (length (chan_freqs (Example.stream 3 Example.band))))
    by (simpl; lia).
  assert (H2 : 0 <= 1 <= Z.of_nat (length (chan_freqs (Example.stream 3 Example.band))))
    by (simpl; lia).
  split; [exact H1|]. split; [exact H2|].
  exact (proj2 (proj2 (channel_window_unordered
                         (Example.stream 3 Example.band) 3 1)) H1 H2).
Defined.



(** ** Header adapter: when it raises *)


Lemma chunks_partition_witness :
  0 < interval + 100
  /\ (interval + 100 <= interval \/ (interval + 100) mod interval <> 0)
  /\ exists cs, chunks (interval + 100) = Ok cs
       /\ planned_samples cs = interval + 100
       /\ contiguous_from 0 cs
       /\ disjoint_increasing cs.
Proof.
  assert (H1 : 0 < interval + 100) by (rewrite interval_eq; lia).
  assert (H2 : interval + 100 <= interval \/ (interval + 100) mod interval <> 0)
    by (right; vm_compute; discriminate).
  split; [exact H1|]. split; [exact H2|].
  exact (chunks_partition (interval + 100) H1 H2).
Defined.

Lemma chunks_exact_multiple_witness :
  interval < 3 * interval
  /\ (3 * interval) mod interval = 0
  /\ exists cs, chunks (3 * interval) = Ok cs
       /\ planned_samples cs = 3 * interval + interval.
Proof.
  assert (H1 : interval < 3 * interval) by (rewrite interval_eq; lia).
  assert (H2 : (3 * interval) mod interval = 0) by reflexivity.
  split; [exact H1|]. split; [exact H2|].
  exact (chunks_exact_multiple (3 * interval) H1 H2).
Defined.

(** ** Writer: what a call leaves alone *)

Section WriterFrame.

Context {sample dtype : Type}.
Variable astype : dtype -> sample -> sample.
Variable tobytes : sample -> list byte.
Variable header_bytes : SigprocFile -> list byte.

Implicit Types (w : world sample) (y : Your sample dtype)
  (data : @spectra sample) (p : string).

(** What a writer call does, by cases on the disk and on header
    construction. *)
Lemma write_fil_cases data y n cf filename outdir w :
  let p := output_path y filename outdir in
  (exists content,
     files w !! p = Some content /\ 8192 < Z.of_nat (length content)
     /\ write_fil tobytes header_bytes data y n cf filename outdir w
        = (stored w p (content ++ data_bytes tobytes data)
             [TryWrite p; Stat p; AppendSpectra data p], Ok tt))
  \/ (exists h,
        make_sigproc_obj p y n cf w = (logged w [GenerateSigproc], Ok h)
        /\ write_fil tobytes header_bytes data y n cf filename outdir w
           = (stored w p (header_bytes h ++ data_bytes tobytes data)
                [TryWrite p; Stat p; GenerateSigproc; WriteHeader h p;
                 AppendSpectra data p], Ok tt))
  \/ (exists e,
        (e = IndexError \/ e = TypeError)
        /\ write_fil tobytes header_bytes data y n cf filename outdir w
           = (logged w [TryWrite p; Stat p; GenerateSigproc], Raise e)).
Proof.
  intros p.
  assert (Hcreate :
    create_with_header tobytes header_bytes data y n cf p
      (logged w [TryWrite p; Stat p])
    = write_fil tobytes header_bytes data y n cf filename outdir w ->
    (exists h,
        make_sigproc_obj p y n cf w = (logged w [GenerateSigproc], Ok h)
        /\ write_fil tobytes header_bytes data y n cf filename outdir w
           = (stored w p (header_bytes h ++ data_bytes tobytes data)
                [TryWrite p; Stat p; GenerateSigproc; WriteHeader h p;
                 AppendSpectra data p], Ok tt))
    \/ (exists e,
        (e = IndexError \/ e = TypeError)
        /\ write_fil tobytes header_bytes data y n cf filename outdir w
           = (logged w [TryWrite p; Stat p; GenerateSigproc], Raise e))).
  { intros <-.
    destruct cf as [l|].
    - destruct (l !! 1%nat) as [f|] eqn:Hf.
      + left.
        destruct (make_sigproc_obj_ok p y n l f w Hf) as (h & Hrun & _).
        exists h. split; [exact Hrun|].
        rewrite (create_with_header_ok _ _ _ _ _ _ _ _ h).
        * rewrite stored_logged. reflexivity.
        * destruct (make_sigproc_obj_run p y n (Some l)) as (o & _ & Hall).
          rewrite Hall in *. congruence.
      + right. exists IndexError. split; [auto|].
        apply lookup_ge_None_1 in Hf.
        rewrite (create_with_header_raise _ _ _ _ _ _ _ _ IndexError)
          by (apply make_sigproc_obj_short; lia).
        rewrite logged_logged. reflexivity.
    - right. exists TypeError. split; [auto|].
      rewrite (create_with_header_raise _ _ _ _ _ _ _ _ TypeError)
        by reflexivity.
      rewrite logged_logged. reflexivity. }
  destruct (files w !! p) as [content|] eqn:Hfile.
  - destruct (Z.lt_ge_cases 8192 (Z.of_nat (length content))) as [Hbig|Hsmall].
    + left. exists content. split; [reflexivity|]. split; [exact Hbig|].
      apply write_fil_append; assumption.
    + right. apply Hcreate. symmetry.
      apply (write_fil_rewrite tobytes header_bytes data y n cf filename outdir
               w content Hfile). lia.
  - right. apply Hcreate. symmetry.
    apply (write_fil_absent tobytes header_bytes data y n cf filename outdir
             w Hfile).
Qed.

(** X7: a writer call reads and writes the output path only: every other
    file of the disk is as it was, whether the call returns or raises. *)
Theorem write_fil_touches_output_only data y n cf filename outdir w q :
  q <> output_path y filename outdir ->
  files (fst (write_fil tobytes header_bytes data y n cf filename outdir w)) !! q
  = files w !! q.
Proof.
  intros Hq.
  destruct (write_fil_cases data y n cf filename outdir w)
    as [(content & _ & _ & ->) | [(h & _ & ->) | (e & _ & ->)]]; simpl;
    try reflexivity; apply lookup_insert_ne; congruence.
Qed.


End WriterFrame.

Lemma write_fil_touches_output_only_witness :
  let y := Example.stream 3 Example.band in
  let w := Example.disk_with "out/other.fil" [x00; x01] in
  "out/other.fil"%string <> output_path y None (Some "out"%string)
  /\ files (fst (write_fil Example.tobytes Example.header_bytes [[1; 2; 3; 4]]
                   y (Some 4) (Some Example.band) None (Some "out"%string) w))
       !! "out/other.fil"%string
     = files w !! "out/other.fil"%string.
Proof.
  cbv zeta.
  assert (Hq : "out/other.fil"%string
               <> output_path (Example.stream 3 Example.band) None
                    (Some "out"%string)) by discriminate.
  split; [exact Hq|].
  exact (write_fil_touches_output_only Example.tobytes Example.header_bytes
           [[1; 2; 3; 4]] (Example.stream 3 Example.band) (Some 4)
           (Some Example.band) None (Some "out"%string) _ _ Hq).
Defined.


(** ** Converter: whole plans *)

Section ConverterPlans.

Context {sample dtype : Type}.
Variable astype : dtype -> sample -> sample.
Variable tobytes : sample -> list byte.
Variable header_bytes : SigprocFile -> list byte.

Implicit Types (w : world sample) (y : Your sample dtype) (p : string).

Lemma stored_same w p content :
  files w !! p = Some content -> stored w p content [] = w.
Proof.
  intros Hfile. destruct w as [fs tr]. unfold stored. simpl in *.
  rewrite insert_id by exact Hfile. rewrite app_nil_r. reflexivity.
Qed.

(** The body of the read loop of [convert]. *)
Lemma for_each_cons w (body : Z * Z -> M unit) x r w1 :
  body x w = (w1, Ok tt) ->
  for_each r body w1 = for_each (x :: r) body w.
Proof. intros Hx. simpl. unfold bind. rewrite Hx. reflexivity. Qed.

Lemma for_each_append y c n cf filfile outdir cs :
  let p := output_path y filfile outdir in
  forall w content,
    files w !! p = Some content ->
    8192 < Z.of_nat (length content) ->
    for_each cs (fun '(nstart, nsamp) =>
      bind (emit (GetData nstart nsamp)) (fun _ =>
        write_fil tobytes header_bytes (chunk_data astype y c nstart nsamp) y
          n cf filfile outdir)) w
    = (stored w p (content ++ plan_bytes astype tobytes y c cs)
         (append_events astype y c p cs), Ok tt).
Proof.
  intros p. induction cs as [|[s k] cs IH]; intros w content Hfile Hbig.
  - simpl. rewrite app_nil_r, stored_same by exact Hfile. reflexivity.
  - set (d := chunk_data astype y c s k).
    assert (Hstep :
      bind (emit (GetData s k)) (fun _ =>
        write_fil tobytes header_bytes d y n cf filfile outdir) w
      = (stored w p (content ++ data_bytes tobytes d)
           ([GetData s k] ++ [TryWrite p; Stat p; AppendSpectra d p]), Ok tt)).
    { rewrite (bind_ok _ _ w _ tt (emit_run _ w)).
      rewrite (write_fil_append tobytes header_bytes d y n cf filfile outdir
                 (logged w [GetData s k]) content Hfile Hbig).
      fold p. rewrite stored_logged. reflexivity. }
    rewrite <- (for_each_cons w _ (s, k) cs _ Hstep).
    rewrite (IH _ (content ++ data_bytes tobytes d)).
    + rewrite stored_stored. simpl. fold d. rewrite <- !app_assoc. reflexivity.
    + apply files_stored.
    + rewrite length_app. lia.
Qed.

(** X9: converting into an output file that already holds more than 8192
    bytes never raises and never constructs or writes a header, whatever
    the channel window is: every planned chunk is read and appended, in
    plan order, after the bytes the file held. *)
Theorem convert_appends_to_existing y c outdir filfile w content :
  let p := output_path y filfile outdir in
  files w !! p = Some content ->
  8192 < Z.of_nat (length content) ->
  exists cs,
    chunks (hdr_native_nspectra (your_header y)) = Ok cs
    /\ convert astype tobytes header_bytes y c outdir filfile w
       = (stored w p (content ++ plan_bytes astype tobytes y c cs)
            (append_events astype y c p cs), Ok tt).
Proof.
  intros p Hfile Hbig.
  pose proof (chunks_closed_form (hdr_native_nspectra (your_header y))) as Hplan.
  eexists. split; [exact Hplan|].
  rewrite convert_unfold.
  rewrite (bind_ok _ _ w w _ (f_equal (pair w) Hplan)).
  apply for_each_append; assumption.
Qed.


(** X11: converting with a window that retains fewer than two channels, to an
    output file that is absent or holds at most 8192 bytes, stops in the
    first writer call: after one read, header construction raises
    [IndexError]; nothing is written and the later chunks are not read. *)
Theorem convert_narrow_window_raises y c outdir filfile w :
  let p := output_path y filfile outdir in
  (forall content, files w !! p = Some content ->
                   Z.of_nat (length content) <= 8192) ->
  (length (retained_freqs y c) <= 1)%nat ->
  exists k,
    convert astype tobytes header_bytes y c outdir filfile w
    = (logged w [GetData 0 k; TryWrite p; Stat p; GenerateSigproc],
       Raise IndexError)
    /\ 0 < k <= interval.
Proof.
  intros p Hsmall Hnarrow.
  set (N := hdr_native_nspectra (your_header y)).
  set (n := Some (Z.of_nat (length (retained_freqs y c)))).
  assert (Hshape : exists k rest, chunks N = Ok ((0, k) :: rest) /\ 0 < k <= interval).
  { rewrite chunks_closed_form. unfold windows_then.
    pose proof interval_pos.
    destruct (Z.to_nat (nloops N - 1)) as [|j].
    - exists (last_nsamp N), []. split; [reflexivity | apply last_nsamp_range].
    - eexists interval, _. split; [reflexivity | lia]. }
  destruct Hshape as (k & rest & Hplan & Hk).
  exists k. split; [|exact Hk].
  set (d := chunk_data astype y c 0 k).
  set (w0 := logged w [GetData 0 k]).
  assert (Hcall : write_fil tobytes header_bytes d y n (Some (retained_freqs y c))
                    filfile outdir w0
                  = (logged w0 [TryWrite p; Stat p; GenerateSigproc],
                     Raise IndexError)).
  { assert (Hcreate : create_with_header tobytes header_bytes d y n
                        (Some (retained_freqs y c)) p
                        (logged w0 [TryWrite p; Stat p])
                      = (logged w0 [TryWrite p; Stat p; GenerateSigproc],
                         Raise IndexError)).
    { rewrite (create_with_header_raise _ _ _ _ _ _ _ _ IndexError)
        by (apply make_sigproc_obj_short; exact Hnarrow).
      rewrite logged_logged. reflexivity. }
    destruct (files w0 !! p) as [content|] eqn:Hfile.
    - rewrite (write_fil_rewrite tobytes header_bytes d y n _ filfile outdir
                 w0 content Hfile (Hsmall content Hfile)).
      exact Hcreate.
    - rewrite (write_fil_absent tobytes header_bytes d y n _ filfile outdir
                 w0 Hfile).
      exact Hcreate. }
  rewrite convert_unfold.
  rewrite (bind_ok _ _ w w _ (f_equal (pair w) Hplan)).
  simpl for_each. unfold bind at 1.
  rewrite (bind_ok _ _ w _ tt (emit_run _ w)).
  fold d n w0. rewrite Hcall. unfold w0. rewrite logged_logged. reflexivity.
Qed.

End ConverterPlans.

Lemma convert_appends_to_existing_witness :
  let y := Example.stream 3 Example.band in
  let w := Example.disk_with Example.out_path (repeat x00 (Z.to_nat 9000)) in
  files w !! output_path y None (Some "out"%string)
  = Some (repeat x00 (Z.to_nat 9000))
  /\ 8192 < Z.of_nat (length (repeat x00 (Z.to_nat 9000)))
  /\ snd (convert Example.astype Example.tobytes Example.header_bytes y
            (Some [2; 3]) (Some "out"%string) None w) = Ok tt.
Proof.
  cbv zeta.
  assert (Hf : files (Example.disk_with Example.out_path (repeat x00 (Z.to_nat 9000)))
               !! output_path (Example.stream 3 Example.band) None
                    (Some "out"%string)
               = Some (repeat x00 (Z.to_nat 9000))) by reflexivity.
  assert (Hb : 8192 < Z.of_nat (length (repeat x00 (Z.to_nat 9000))))
    by (rewrite repeat_length; lia).
  split; [exact Hf|]. split; [exact Hb|].
  destruct (convert_appends_to_existing Example.astype Example.tobytes
              Example.header_bytes (Example.stream 3 Example.band)
              (Some [2; 3]) (Some "out"%string) None _ _ Hf Hb)
    as (cs & _ & Hrun).
  rewrite Hrun. reflexivity.
Defined.


Lemma convert_narrow_window_raises_witness :
  let y := Example.stream 3 Example.band in
  (forall content,
     files Example.empty_disk !! output_path y None (Some "out"%string)
     = Some content -> Z.of_nat (length content) <= 8192)
  /\ (length (retained_freqs y (Some [2; 3]%Z)) <= 1)%nat
  /\ snd (convert Example.astype Example.tobytes Example.header_bytes y
            (Some [2; 3]) (Some "out"%string) None Example.empty_disk)
     = Raise IndexError.
Proof.
  cbv zeta.
  assert (Hs : forall content,
             files Example.empty_disk
             !! output_path (Example.stream 3 Example.band) None
                  (Some "out"%string) = Some content ->
             Z.of_nat (length content) <= 8192)
    by (intros content H; discriminate H).
  assert (Hl : (length (retained_freqs (Example.stream 3%Z Example.band)
                          (Some [2; 3]%Z)) <= 1)%nat) by (simpl; lia).
  split; [exact Hs|]. split; [exact Hl|].
  destruct (convert_narrow_window_raises Example.astype Example.tobytes
              Example.header_bytes (Example.stream 3 Example.band)
              (Some [2; 3]) (Some "out"%string) None Example.empty_disk Hs Hl)
    as (k & Hrun & _).
  rewrite Hrun. reflexivity.
Defined.

(** ** Strings: split, join and the parts of a path *)

Lemma split_nonempty sep s : Py.split sep s <> [].
Proof.
  destruct s as [|ch s]; simpl; [discriminate|].
  destruct (Ascii.eqb ch sep); [discriminate|].
  destruct (Py.split sep s); discriminate.
Qed.

Lemma split_no_sep sep s : count_char sep s = 0%nat -> Py.split sep s = [s].
Proof.
  induction s as [|ch s IH]; simpl; [reflexivity|].
  destruct (Ascii.eqb ch sep); [discriminate|]. simpl.
  intros Hc. rewrite (IH Hc). reflexivity.
Qed.

Lemma split_app sep a b :
  Py.split sep (a +:+ String sep b) = Py.split sep a ++ Py.split sep b.
Proof.
  induction a as [|ch a IH].
  - rewrite app_empty. simpl. rewrite Ascii.eqb_refl. reflexivity.
  - rewrite app_cons. simpl. rewrite IH.
    destruct (Ascii.eqb ch sep); [reflexivity|].
    pose proof (split_nonempty sep a) as Hne.
    destruct (Py.split sep a) as [|w ws]; [congruence | reflexivity].
Qed.

Lemma split_length sep s : length (Py.split sep s) = S (count_char sep s).
Proof.
  induction s as [|ch s IH]; simpl; [reflexivity|].
  destruct (Ascii.eqb ch sep); simpl; [rewrite IH; reflexivity|].
  pose proof (split_nonempty sep s) as Hne.
  destruct (Py.split sep s) as [|w ws]; [congruence|]. simpl in *. exact IH.
Qed.

Lemma split_pieces sep s :
  Forall (fun piece => count_char sep piece = 0%nat) (Py.split sep s).
Proof.
  induction s as [|ch s IH]; simpl; [repeat constructor|].
  destruct (Ascii.eqb ch sep) eqn:E; [constructor; [reflexivity | exact IH]|].
  pose proof (split_nonempty sep s) as Hne.
  destruct (Py.split sep s) as [|w ws]; [congruence|].
  inversion IH as [|? ? Hw Hws]; subst.
  constructor; [|exact Hws]. simpl. rewrite E. exact Hw.
Qed.

Lemma join_cons_cons sep x y l :
  Py.join sep (x :: y :: l) = x +:+ sep +:+ Py.join sep (y :: l).
Proof. reflexivity. Qed.

Lemma join_split sep s : Py.join (String sep EmptyString) (Py.split sep s) = s.
Proof.
  induction s as [|ch s IH]; simpl; [reflexivity|].
  pose proof (split_nonempty sep s) as Hne.
  destruct (Ascii.eqb_spec ch sep) as [->|Hch].
  - destruct (Py.split sep s) as [|w ws] eqn:E; [congruence|].
    rewrite join_cons_cons, IH. reflexivity.
  - destruct (Py.split sep s) as [|w ws] eqn:E; [congruence|].
    destruct ws as [|w' ws].
    + simpl in *. rewrite IH. reflexivity.
    + rewrite join_cons_cons in *. rewrite app_cons, IH. reflexivity.
Qed.

Lemma cut_last_slash_none s :
  count_char "/" s = 0%nat -> Py.cut_last_slash s = (EmptyString, s).
Proof.
  induction s as [|ch s IH]; simpl; [reflexivity|].
  destruct (Ascii.eqb ch "/") eqn:E; [discriminate|]. simpl.
  intros Hc. rewrite (IH Hc). reflexivity.
Qed.

Lemma cut_last_slash_app dir base :
  count_char "/" base = 0%nat ->
  Py.cut_last_slash (dir +:+ String "/" base) = (dir +:+ "/", base).
Proof.
  intros Hb. induction dir as [|ch dir IH].
  - rewrite !app_empty. simpl. rewrite (cut_last_slash_none _ Hb). reflexivity.
  - rewrite !app_cons. simpl. rewrite IH.
    destruct dir; reflexivity.
Qed.

Lemma rstrip_slash_app dir :
  Py.rstrip_slash (dir +:+ "/") = Py.rstrip_slash dir.
Proof.
  induction dir as [|ch dir IH]; [reflexivity|].
  rewrite app_cons. simpl. rewrite IH. reflexivity.
Qed.

Lemma os_path_split_app dir base :
  count_char "/" base = 0%nat ->
  dir <> EmptyString -> Py.rstrip_slash dir = dir ->
  Py.os_path_split (dir +:+ String "/" base) = (dir, base).
Proof.
  intros Hb Hne Hdir. unfold Py.os_path_split.
  rewrite (cut_last_slash_app _ _ Hb), rstrip_slash_app, Hdir.
  apply String.eqb_neq in Hne. rewrite Hne. reflexivity.
Qed.

(** ** Output path *)

(** X12: the default output name: for a source file [dir/a_b.ext], where [b]
    is the last underscore-separated part of the name before its first
    dot, the output path is [dir/a.fil]: the last part and the extension
    are dropped, the directory is that of the source. *)
Theorem output_path_default {sample dtype} (y : Your sample dtype) dir a b ext :
  hdr_filename (your_header y)
  = dir +:+ String "/" (a +:+ String "_" (b +:+ String "." ext)) ->
  dir <> EmptyString -> Py.rstrip_slash dir = dir ->
  count_char "/" (a +:+ String "_" (b +:+ String "." ext)) = 0%nat ->
  count_char "." (a +:+ String "_" b) = 0%nat ->
  count_char "_" b = 0%nat ->
  output_path y None None = dir +:+ "/" +:+ a +:+ ".fil".
Proof.
  intros Hname Hne Hdir Hslash Hdot Hus. unfold output_path.
  rewrite Hname, (os_path_split_app _ _ Hslash Hne Hdir). simpl Py.truthy.
  replace (a +:+ String "_" (b +:+ String "." ext))
    with ((a +:+ String "_" b) +:+ String "." ext)
    by (rewrite string_app_assoc, app_cons; reflexivity).
  rewrite split_app, (split_no_sep _ _ Hdot). simpl hd.
  rewrite split_app, (split_no_sep "_" b Hus).
  rewrite removelast_last, join_split. reflexivity.
Qed.

Lemma output_path_default_witness :
  let y := Example.stream 3 Example.band in
  hdr_filename (your_header y)
  = "/data" +:+ String "/" ("guppi_57000_J0000" +:+ String "_" ("0001" +:+ String "." "fits"))
  /\ output_path y None None = "/data" +:+ "/" +:+ "guppi_57000_J0000" +:+ ".fil".
Proof.
  cbv zeta.
  assert (H : hdr_filename (your_header (Example.stream 3 Example.band))
              = "/data" +:+ String "/" ("guppi_57000_J0000" +:+ String "_"
                                        ("0001" +:+ String "." "fits")))
    by reflexivity.
  split; [exact H|].
  apply (output_path_default (Example.stream 3 Example.band)
           "/data" "guppi_57000_J0000" "0001" "fits" H);
    first [discriminate | reflexivity].
Defined.

(** X13: a source file whose name has no underscore before its first dot
    gives the output name [.fil]: whatever the name is, the output path
    is [dir/.fil]. *)
Theorem output_path_without_underscore {sample dtype} (y : Your sample dtype)
    dir stem ext :
  hdr_filename (your_header y) = dir +:+ String "/" (stem +:+ String "." ext) ->
  dir <> EmptyString -> Py.rstrip_slash dir = dir ->
  count_char "/" (stem +:+ String "." ext) = 0%nat ->
  count_char "." stem = 0%nat ->
  count_char "_" stem = 0%nat ->
  output_path y None None = dir +:+ "/.fil".
Proof.
  intros Hname Hne Hdir Hslash Hdot Hus. unfold output_path.
  rewrite Hname, (os_path_split_app _ _ Hslash Hne Hdir). simpl Py.truthy.
  rewrite split_app, (split_no_sep _ _ Hdot). simpl hd.
  rewrite (split_no_sep "_" stem Hus). reflexivity.
Qed.

Lemma output_path_without_underscore_witness :
  let y := Gallery.stream_at "/data/observation.fits" (-91 # 2) in
  hdr_filename (your_header y)
  = "/data" +:+ String "/" ("observation" +:+ String "." "fits")
  /\ output_path y None None = "/data" +:+ "/.fil".
Proof.
  cbv zeta. split; [reflexivity|].
  apply (output_path_without_underscore _ "/data" "observation" "fits");
    first [discriminate | reflexivity].
Defined.

(** X14: when the source file name has no directory part and no output
    directory is given, the output path starts at the root: it is ["/"]
    followed by the output name (the given one if it is not empty). *)
Theorem output_path_without_directory {sample dtype} (y : Your sample dtype)
    filename :
  count_char "/" (hdr_filename (your_header y)) = 0%nat ->
  exists name,
    output_path y filename None = String "/" name
    /\ forall given, filename = Some given -> given <> EmptyString -> name = given.
Proof.
  intros Hslash. unfold output_path, Py.os_path_split.
  rewrite (cut_last_slash_none _ Hslash). simpl.
  destruct filename as [[|ch given]|]; simpl.
  - eexists. split; [reflexivity|]. intros given [= <-] Hne. congruence.
  - eexists. split; [reflexivity|]. intros given' [= <-] _. reflexivity.
  - eexists. split; [reflexivity|]. intros given [=].
Qed.

(** ** Command line: the list of input files *)

(** X15: an argument without a space is expanded by [glob]; an argument with a
    space is never expanded: it is cut at every space, into one more
    path than it has spaces (empty paths where spaces are doubled,
    leading or trailing), and the paths joined by spaces give the
    argument back. *)
Theorem resolve_files_pieces glob files :
  (count_char " " files = 0%nat -> resolve_files glob files = glob files)
  /\ ((0 < count_char " " files)%nat ->
      resolve_files glob files = Py.split " " files
      /\ length (resolve_files glob files) = S (count_char " " files)
      /\ Py.join " " (resolve_files glob files) = files
      /\ Forall (fun path => count_char " " path = 0%nat)
                (resolve_files glob files)).
Proof.
  unfold resolve_files. rewrite split_length. split.
  - intros ->. reflexivity.
  - intros Hpos.
    destruct (Nat.ltb_spec 1 (S (count_char " " files))) as [_|]; [|lia].
    split; [reflexivity|]. split; [apply split_length|].
    split; [apply join_split | apply split_pieces].
Qed.

Lemma resolve_files_pieces_witness :
  (0 < count_char " " "a.fits  b*.fits")%nat
  /\ resolve_files (fun _ => []) "a.fits  b*.fits"
     = ["a.fits"; EmptyString; "b*.fits"]%string.
Proof.
  assert (H : (0 < count_char " " "a.fits  b*.fits")%nat) by (simpl; lia).
  split; [exact H|].
  rewrite (proj1 (proj2 (resolve_files_pieces (fun _ => []) "a.fits  b*.fits") H)).
  reflexivity.
Defined.

(** ** The number a packed literal denotes *)

Lemma uint_value_shift acc d :
  uint_value acc d = acc * 10 ^ Z.of_nat (Decimal.nb_digits d) + uint_value 0 d.
Proof.
  revert acc.
  induction d as [|d IH|d IH|d IH|d IH|d IH|d IH|d IH|d IH|d IH|d IH];
    intros acc; simpl uint_value; simpl Decimal.nb_digits;
    [simpl; lia | ..];
    rewrite Nat2Z.inj_succ, Z.pow_succ_r by lia;
    rewrite (IH (10 * acc + _)) || rewrite (IH (10 * acc));
    rewrite (IH (10 * 0 + _)) || rewrite (IH (10 * 0)); ring.
Qed.

Lemma of_uint_acc_value d acc :
  Z.pos (Pos.of_uint_acc d acc) = uint_value (Z.pos acc) d.
Proof.
  revert acc.
  induction d as [|d IH|d IH|d IH|d IH|d IH|d IH|d IH|d IH|d IH|d IH];
    intros acc; simpl; [reflexivity | ..]; rewrite IH; f_equal; lia.
Qed.

Lemma of_uint_value d : Z.of_N (Pos.of_uint d) = uint_value 0 d.
Proof.
  induction d as [|d IH|d IH|d IH|d IH|d IH|d IH|d IH|d IH|d IH|d IH];
    simpl; [reflexivity | exact IH | ..]; apply of_uint_acc_value.
Qed.

Lemma uint_value_to_uint n : uint_value 0 (N.to_uint n) = Z.of_N n.
Proof.
  rewrite <- of_uint_value.
  change (Pos.of_uint (N.to_uint n)) with (N.of_uint (N.to_uint n)).
  rewrite DecimalN.Unsigned.of_to. reflexivity.
Qed.

Lemma length_string_of_uint d :
  String.length (NilEmpty.string_of_uint d) = Decimal.nb_digits d.
Proof. induction d; simpl; congruence. Qed.

Lemma string_length_app (a b : string) :
  String.length (a +:+ b) = (String.length a + String.length b)%nat.
Proof.
  induction a as [|ch a IH]; [reflexivity|].
  rewrite app_cons. simpl. rewrite IH. reflexivity.
Qed.

Lemma scan_step ch v r mant seen frac :
  Ascii.eqb ch "." = false ->
  Py.digit_of_ascii ch = Some v ->
  Py.scan (String ch r) mant seen frac
  = Py.scan r (10 * mant + v) true (S <$> frac).
Proof. intros H1 H2. cbn [Py.scan]. rewrite H1, H2. reflexivity. Qed.

Lemma scan_uint d r mant seen frac :
  Py.scan (NilEmpty.string_of_uint d +:+ r) mant seen frac
  = Py.scan r (uint_value mant d)
      (seen || negb (Nat.eqb (Decimal.nb_digits d) 0))
      ((fun k => (k + Decimal.nb_digits d)%nat) <$> frac).
Proof.
  revert mant seen frac.
  induction d as [|d IH|d IH|d IH|d IH|d IH|d IH|d IH|d IH|d IH|d IH];
    intros mant seen frac.
  1: { cbn [NilEmpty.string_of_uint uint_value Decimal.nb_digits].
       rewrite app_empty.
       f_equal; [destruct seen; reflexivity|].
       destruct frac; cbn; f_equal; lia. }
  all: cbn [NilEmpty.string_of_uint uint_value Decimal.nb_digits];
    rewrite app_cons;
    erewrite scan_step by reflexivity;
    rewrite IH;
    f_equal.
  all: try (destruct frac; cbn; f_equal; lia).
  all: f_equal; lia.
Qed.

Lemma length_zeros k :
  String.length (string_of_list_ascii (repeat "0"%char k)) = k.
Proof. induction k as [|k IH]; simpl; congruence. Qed.

Lemma scan_zeros k r mant seen frac :
  Py.scan (string_of_list_ascii (repeat "0"%char k) +:+ r) mant seen frac
  = Py.scan r (mant * 10 ^ Z.of_nat k)
      (seen || negb (Nat.eqb k 0))
      ((fun j => (j + k)%nat) <$> frac).
Proof.
  revert mant seen frac. induction k as [|k IH]; intros mant seen frac.
  - cbn [repeat string_of_list_ascii]. rewrite app_empty.
    f_equal; [cbn; lia | destruct seen; reflexivity |].
    destruct frac; cbn; f_equal; lia.
  - cbn [repeat string_of_list_ascii]. rewrite app_cons.
    rewrite (scan_step "0" 0) by reflexivity. rewrite IH.
    rewrite Nat2Z.inj_succ, Z.pow_succ_r by lia.
    f_equal.
    all: try (destruct frac; cbn; f_equal; lia).
    all: try (destruct seen; reflexivity).
    all: ring.
Qed.

Lemma zfill_length w s :
  String.length (Py.zfill w s) = Nat.max w (String.length s).
Proof.
  unfold Py.zfill. rewrite string_length_app, length_zeros. lia.
Qed.

(** A zero-padded field contributes its digits, in as many positions as
    it is long. *)
Lemma scan_field w n r mant seen frac :
  0 <= n ->
  Py.scan (Py.zfill w (Py.digits n) +:+ r) mant seen frac
  = Py.scan r
      (mant * 10 ^ Z.of_nat (String.length (Py.zfill w (Py.digits n))) + n)
      (seen || negb (Nat.eqb (String.length (Py.zfill w (Py.digits n))) 0))
      ((fun j => (j + String.length (Py.zfill w (Py.digits n)))%nat) <$> frac).
Proof.
  intros Hn. unfold Py.zfill, Py.digits.
  rewrite string_app_assoc, scan_zeros, scan_uint.
  rewrite uint_value_shift, uint_value_to_uint, Z2N.id by exact Hn.
  rewrite string_length_app, length_zeros, length_string_of_uint.
  set (k := (w - Decimal.nb_digits (N.to_uint (Z.to_N n)))%nat).
  set (d := Decimal.nb_digits (N.to_uint (Z.to_N n))).
  rewrite Nat2Z.inj_add, Z.pow_add_r by lia.
  f_equal.
  all: try (destruct frac; cbn; f_equal; lia).
  all: try (destruct seen, k, d; reflexivity).
  all: ring.
Qed.

Lemma digits_length_below_100 n :
  0 <= n < 100 -> (String.length (Py.digits n) <= 2)%nat.
Proof.
  intros Hn.
  assert (Hall : forallb (fun i => Nat.leb (String.length (Py.digits (Z.of_nat i))) 2)
                   (seq 0 100) = true) by (vm_compute; reflexivity).
  rewrite forallb_forall in Hall.
  specialize (Hall (Z.to_nat n)). rewrite Z2Nat.id in Hall by lia.
  apply Nat.leb_le, Hall, in_seq. lia.
Qed.

Lemma digits_length_below_10000 n :
  0 <= n < 10000 -> (String.length (Py.digits n) <= 4)%nat.
Proof.
  intros Hn.
  assert (Hall : forallb (fun i => Nat.leb (String.length (Py.digits (Z.of_nat i))) 4)
                   (seq 0 (Z.to_nat 10000)) = true) by (vm_compute; reflexivity).
  rewrite forallb_forall in Hall.
  specialize (Hall (Z.to_nat n)). rewrite Z2Nat.id in Hall by lia.
  apply Nat.leb_le, Hall, in_seq. lia.
Qed.

Lemma string_app_empty_r (s : string) : s +:+ EmptyString = s.
Proof.
  induction s as [|ch s IH]; [reflexivity|]. rewrite app_cons, IH. reflexivity.
Qed.

Lemma float_of_string_digits a r :
  all_digits a -> a <> EmptyString ->
  Py.float_of_string (a +:+ r)
  = match Py.unsigned_of_string (a +:+ r) with
    | Some q => Ok (Qred q)
    | None => Raise ValueError
    end.
Proof.
  intros Ha Hne. destruct a as [|ch a]; [congruence|].
  rewrite app_cons. destruct Ha as [Hc _].
  unfold Py.float_of_string. rewrite (digit_not_minus _ Hc). reflexivity.
Qed.

Lemma float_of_string_minus r :
  Py.float_of_string ("-" +:+ r)
  = match Py.unsigned_of_string r with
    | Some q => Ok (Qred (- q))
    | None => Raise ValueError
    end.
Proof.
  rewrite app_cons, app_empty. unfold Py.float_of_string.
  change (Ascii.eqb "-" "-") with true. cbv iota.
  destruct (Py.unsigned_of_string r); reflexivity.
Qed.

Lemma round_half_even_nonneg x : (0 <= x)%Q -> 0 <= Py.round_half_even x.
Proof.
  intros Hx. unfold Py.round_half_even.
  assert (0 <= Qfloor x).
  { change 0 with (Qfloor (inject_Z 0)) at 1.
    rewrite Qfloor_Z. apply (Qfloor_resp_le 0 x) in Hx.
    change (Qfloor 0) with 0 in Hx. exact Hx. }
  destruct (_ ?= _)%Q; [destruct (Z.even _)|..]; lia.
Qed.

Lemma round_half_even_proper x x' :
  (x == x')%Q -> Py.round_half_even x = Py.round_half_even x'.
Proof.
  intros Hx. unfold Py.round_half_even.
  rewrite (Qfloor_comp _ _ Hx).
  assert (Hc : ((x - inject_Z (Qfloor x') ?= 1 # 2)
                = (x' - inject_Z (Qfloor x') ?= 1 # 2))%Q)
    by (rewrite Hx; reflexivity).
  rewrite Hc. reflexivity.
Qed.

Lemma round_half_even_le x k :
  (x <= inject_Z k)%Q -> Py.round_half_even x <= k.
Proof.
  intros Hx. unfold Py.round_half_even.
  pose proof (Qfloor_resp_le _ _ Hx) as Hfl. rewrite Qfloor_Z in Hfl.
  destruct (Z.eq_dec (Qfloor x) k) as [Hk|Hk].
  - assert (Hlt : (x - inject_Z (Qfloor x) < 1 # 2)%Q).
    { rewrite Hk.
      apply Qle_lt_trans with (y := 0%Q); [|reflexivity].
      apply (Qplus_le_l _ _ (inject_Z k)). ring_simplify. exact Hx. }
    rewrite (proj1 (Qlt_alt _ _) Hlt). lia.
  - destruct (_ ?= _)%Q; [destruct (Z.even _)|..]; lia.
Qed.

(** The value of a packed literal whose minutes take two digits and whose
    seconds are below 100: the leading component, two digits of minutes,
    two digits of seconds and four decimals, with the sign of the leading
    component when that is negative. *)
Lemma packed_literal_value t0 t1 t2 :
  let h := Py.int_of_float t0 in
  let m := Z.abs (Py.int_of_float t1) in
  let r := Py.round_half_even (Qabs t2 * inject_Z 10000) in
  m < 100 -> r < 1000000 ->
  Py.float_of_string (packed_literal (t0, t1, t2))
  = Ok (Qred (inject_Z ((if h <? 0 then -1 else 1)
                        * ((Z.abs h * 100 + m) * 1000000 + r))
              / inject_Z 10000)).
Proof.
  intros h m r Hm Hr.
  assert (Hr0 : 0 <= r).
  { apply round_half_even_nonneg.
    apply Qmult_le_0_compat; [apply Qabs_nonneg | discriminate]. }
  assert (Hm0 : 0 <= m) by apply Z.abs_nonneg.
  set (ip := r / 10000). set (fp := r mod 10000).
  assert (Hdm : r = 10000 * ip + fp) by (apply Z.div_mod; lia).
  assert (Hfp : 0 <= fp < 10000) by (apply Z.mod_pos_bound; lia).
  assert (Hip : 0 <= ip < 100).
  { split; [apply Z.div_pos; lia|]. apply Z.div_lt_upper_bound; lia. }
  set (F := Py.zfill 4 (Py.digits fp)).
  assert (HF : String.length F = 4%nat).
  { unfold F. rewrite zfill_length.
    pose proof (digits_length_below_10000 fp Hfp). lia. }
  assert (HB : String.length (Py.zfill 2 (Py.digits m)) = 2%nat).
  { rewrite zfill_length.
    pose proof (digits_length_below_100 m ltac:(lia)). lia. }
  assert (HI : String.length (Py.zfill 2 (Py.digits ip)) = 2%nat).
  { rewrite zfill_length. pose proof (digits_length_below_100 ip Hip). lia. }
  assert (HC : Py.format_07_4f (Qabs t2)
               = Py.zfill 2 (Py.digits ip) +:+ String "." (F +:+ EmptyString)).
  { unfold Py.format_07_4f. fold r. fold ip. fold fp. fold F.
    unfold Py.zfill at 1.
    rewrite string_length_app, string_length_app, HF.
    unfold Py.zfill at 1.
    replace (7 - (String.length (Py.digits ip) + (String.length "." + 4)))%nat
      with (2 - String.length (Py.digits ip))%nat by (simpl; lia).
    rewrite string_app_empty_r, string_app_assoc. reflexivity. }
  assert (Htail : forall mant seen,
    Py.scan (Py.format_02d m +:+ Py.format_07_4f (Qabs t2)) mant seen None
    = Some ((mant * 100 + m) * 1000000 + r, 4%nat)).
  { intros mant seen. rewrite HC. unfold Py.format_02d.
    destruct (Z.ltb_spec m 0) as [|_]; [lia|].
    rewrite scan_field by lia. rewrite HB.
    rewrite scan_field by lia. rewrite HI.
    cbn [Py.scan fmap option_fmap option_map].
    change (Ascii.eqb "." ".") with true. cbv iota.
    unfold F. rewrite scan_field by lia. fold F. rewrite HF.
    cbn [Py.scan fmap option_fmap option_map default].
    rewrite !orb_true_r. f_equal. f_equal. rewrite Hdm.
    change (10 ^ Z.of_nat 2) with 100. change (10 ^ Z.of_nat 4) with 10000.
    ring. }
  unfold packed_literal. fold h. fold m.
  assert (Hval : forall M,
    Qred (inject_Z M / inject_Z (10 ^ Z.of_nat 4))
    = Qred (inject_Z M / inject_Z 10000)) by reflexivity.
  unfold Py.format_02d at 1.
  destruct (Z.ltb_spec h 0) as [Hneg|Hpos].
  - rewrite string_app_assoc, float_of_string_minus.
    unfold Py.unsigned_of_string.
    rewrite scan_field by lia. cbn [fmap option_fmap option_map].
    rewrite Htail. f_equal. apply Qred_complete.
    change (10 ^ Z.of_nat 4) with 10000.
    rewrite Z.mul_0_l, Z.add_0_l.
    replace (-1 * ((Z.abs h * 100 + m) * 1000000 + r))
      with (- ((Z.abs h * 100 + m) * 1000000 + r)) by ring.
    unfold Qeq, Qdiv, Qmult, Qopp, Qinv, inject_Z. simpl. lia.
  - rewrite float_of_string_digits
      by (first [apply all_digits_zfill, all_digits_digits | apply zfill_nonempty]).
    unfold Py.unsigned_of_string.
    rewrite scan_field by lia. cbn [fmap option_fmap option_map].
    rewrite Htail. f_equal. apply Qred_complete.
    change (10 ^ Z.of_nat 4) with 10000.
    rewrite Z.mul_0_l, Z.add_0_l, Z.abs_eq by lia.
    rewrite Z.mul_1_l. reflexivity.
Qed.

(** ** Packed coordinates of any angle *)

Lemma int_of_float_inject z : Py.int_of_float (inject_Z z) = z.
Proof. unfold Py.int_of_float. simpl. apply Z.quot_1_r. Qed.

Lemma parts_bounds a :
  (0 <= a)%Q ->
  0 <= whole_part a
  /\ 0 <= minute_part a <= 59
  /\ (0 <= second_part a)%Q /\ (second_part a < 60)%Q.
Proof.
  intros Ha. unfold second_part, minute_part, whole_part.
  set (d := Qfloor a).
  pose proof (Qfloor_le a) as Hd1. pose proof (Qlt_floor a) as Hd2.
  fold d in Hd1, Hd2. rewrite inject_Z_plus in Hd2.
  set (mfull := ((a - inject_Z d) * inject_Z 60)%Q).
  set (m := Qfloor mfull).
  pose proof (Qfloor_le mfull) as Hm1. pose proof (Qlt_floor mfull) as Hm2.
  fold m in Hm1, Hm2. rewrite inject_Z_plus in Hm2.
  change (inject_Z 1) with 1%Q in *. change (inject_Z 60) with 60%Q in *.
  assert (Hmf : (0 <= mfull)%Q /\ (mfull < 60)%Q) by (unfold mfull; split; lra).
  assert (Hd0 : 0 <= d).
  { apply (Qfloor_resp_le 0 a) in Ha. exact Ha. }
  assert (Hm0 : 0 <= m).
  { destruct Hmf as [Hmf _]. apply (Qfloor_resp_le 0 mfull) in Hmf. exact Hmf. }
  assert (Hm59 : m <= 59).
  { assert (Hlt : (inject_Z m < inject_Z 60)%Q)
      by (change (inject_Z 60) with 60%Q; lra).
    rewrite <- Zlt_Qlt in Hlt. lia. }
  repeat split; try assumption; lra.
Qed.

Lemma second_ticks_bounds a : (0 <= a)%Q -> 0 <= second_ticks a <= 600000.
Proof.
  intros Ha. destruct (parts_bounds a Ha) as (_ & _ & Hs0 & Hs1).
  unfold second_ticks. split.
  - apply round_half_even_nonneg. change (inject_Z 10000) with 10000%Q. lra.
  - apply round_half_even_le. change (inject_Z 10000) with 10000%Q.
    change (inject_Z 600000) with 600000%Q. lra.
Qed.

(** What the packing of lines 74-75 makes of the components of an angle. *)
Lemma sexagesimal_packed x :
  Py.float_of_string (packed_literal (sexagesimal x))
  = Ok (packed_value (packed_sign x) (Qabs x)).
Proof.
  pose proof (Qabs_nonneg x) as Ha.
  destruct (parts_bounds _ Ha) as (Hd & Hm & Hs0 & Hs1).
  pose proof (second_ticks_bounds _ Ha) as Ht.
  unfold sexagesimal. cbv zeta.
  set (sign := if Qle_bool 0 x then 1 else -1).
  assert (Hsign : sign = 1 \/ sign = -1) by (unfold sign; destruct (Qle_bool 0 x); auto).
  fold (whole_part (Qabs x)). fold (minute_part (Qabs x)).
  fold (second_part (Qabs x)).
  assert (Hr : Py.round_half_even
                 (Qabs (Qred (inject_Z sign * second_part (Qabs x))) * inject_Z 10000)
               = second_ticks (Qabs x)).
  { apply round_half_even_proper. rewrite Qred_correct.
    destruct Hsign as [-> | ->].
    - rewrite Qabs_pos by (change (inject_Z 1) with 1%Q; lra).
      change (inject_Z 1) with 1%Q. ring.
    - rewrite Qabs_neg by (change (inject_Z (-1)) with (-1)%Q; lra).
      change (inject_Z (-1)) with (-1)%Q. ring. }
  rewrite packed_literal_value; rewrite ?int_of_float_inject, ?Hr.
  - unfold packed_value, packed_sign.
    match goal with
    | |- Ok (Qred (inject_Z ?A / _)) = Ok (Qred (inject_Z ?B / _)) =>
        assert (HAB : A = B); [|rewrite HAB; reflexivity]
    end.
    unfold sign. destruct (Qle_bool 0 x); simpl orb; cbv iota.
    + destruct (Z.ltb_spec (1 * whole_part (Qabs x)) 0); lia.
    + destruct (Z.eqb_spec (whole_part (Qabs x)) 0) as [E|E];
        destruct (Z.ltb_spec (-1 * whole_part (Qabs x)) 0); lia.
  - destruct Hsign as [-> | ->]; lia.
  - lia.
Qed.

Lemma packed_value_proper sign a a' :
  (a == a')%Q -> packed_value sign a = packed_value sign a'.
Proof.
  intros Ha.
  assert (Hw : whole_part a = whole_part a') by (apply Qfloor_comp, Ha).
  assert (Hm : minute_part a = minute_part a').
  { unfold minute_part. rewrite Hw. apply Qfloor_comp. rewrite Ha. reflexivity. }
  assert (Hs : second_ticks a = second_ticks a').
  { unfold second_ticks, second_part. rewrite Hw, Hm.
    apply round_half_even_proper. rewrite Ha. reflexivity. }
  unfold packed_value. rewrite Hw, Hm, Hs. reflexivity.
Qed.


Lemma Ok_inj {A} (a b : A) : Ok a = Ok b -> a = b.
Proof. intros H. injection H as ->. reflexivity. Qed.

Section PackedCoordinates.

Context {sample dtype : Type}.
Implicit Types (w : world sample) (y : Your sample dtype).



(** X18: a declination between -1 and 0 degrees loses its sign: the header
    holds a non-negative number, the same as for the opposite
    declination. *)
Theorem src_dej_small_negative p y n cf w w' h :
  make_sigproc_obj p y n cf w = (w', Ok h) ->
  (-1 < hdr_dec_deg (your_header y))%Q ->
  (hdr_dec_deg (your_header y) < 0)%Q ->
  (0 <= src_dej h)%Q
  /\ Py.float_of_string (packed_literal (dec_dms (- hdr_dec_deg (your_header y))))
     = Ok (src_dej h).
Proof.
  intros Hrun Hlo Hhi.
  set (dec := hdr_dec_deg (your_header y)) in *.
  destruct (make_sigproc_obj_ok_inv _ _ _ _ _ _ _ Hrun) as (l & -> & _ & Hf & ->).
  destruct (make_sigproc_obj_ok p y n l _ w Hf)
    as (h' & Hh & _ & _ & _ & _ & _ & Hdej).
  rewrite Hh in Hrun. injection Hrun as ->.
  unfold dec_dms in *. fold dec in Hdej.
  rewrite sexagesimal_packed in Hdej. apply Ok_inj in Hdej.
  assert (Habs : (Qabs dec == - dec)%Q) by (apply Qabs_neg; lra).
  assert (Hwhole : whole_part (Qabs dec) = 0).
  { unfold whole_part.
    pose proof (Qfloor_le (Qabs dec)) as H1.
    pose proof (Qlt_floor (Qabs dec)) as H2.
    rewrite inject_Z_plus in H2. change (inject_Z 1) with 1%Q in H2.
    assert (Hl : (inject_Z (Qfloor (Qabs dec)) < inject_Z 1)%Q)
      by (change (inject_Z 1) with 1%Q; lra).
    assert (Hg : (inject_Z (-1) < inject_Z (Qfloor (Qabs dec)))%Q)
      by (change (inject_Z (-1)) with (-1)%Q; lra).
    rewrite <- Zlt_Qlt in Hl, Hg. lia. }
  assert (Hsign : packed_sign dec = 1).
  { unfold packed_sign. rewrite Hwhole, orb_true_r. reflexivity. }
  rewrite Hsign in Hdej.
  pose proof (Qabs_nonneg dec) as Ha.
  destruct (parts_bounds _ Ha) as (Hd & Hm & _).
  pose proof (second_ticks_bounds _ Ha) as Ht.
  split.
  - rewrite <- Hdej. unfold packed_value. rewrite Qred_correct.
    apply Qle_shift_div_l; [reflexivity|]. rewrite Qmult_0_l.
    change 0%Q with (inject_Z 0). rewrite <- Zle_Qle. lia.
  - rewrite sexagesimal_packed, <- Hdej. f_equal.
    assert (Hs2 : packed_sign (- dec) = 1).
    { unfold packed_sign.
      rewrite (proj2 (Qle_bool_iff 0 (- dec))) by lra. reflexivity. }
    rewrite Hs2. apply packed_value_proper. rewrite Qabs_opp. reflexivity.
Qed.

End PackedCoordinates.

(** ** The further properties on synthetic streams *)

Lemma output_path_without_directory_witness :
  let y := Gallery.stream_at "guppi_0001.fits" (-91 # 2) in
  count_char "/" (hdr_filename (your_header y)) = 0%nat
  /\ exists name, output_path y None None = String "/" name.
Proof.
  cbv zeta.
  assert (H : count_char "/" (hdr_filename (your_header
                (Gallery.stream_at "guppi_0001.fits" (-91 # 2)))) = 0%nat)
    by reflexivity.
  split; [exact H|].
  destruct (output_path_without_directory
              (Gallery.stream_at "guppi_0001.fits" (-91 # 2)) None H)
    as (name & Hname & _).
  exists name. exact Hname.
Defined.



Lemma src_dej_small_negative_witness :
  let y := Gallery.stream_at "/data/guppi_57000_J0000_0001.fits" (-1 # 2) in
  make_sigproc_obj Example.out_path y (Some 4) (Some Example.band)
    Example.empty_disk
  = (logged Example.empty_disk [GenerateSigproc], Ok Gallery.half_degree_south)
  /\ (-1 < hdr_dec_deg (your_header y))%Q
  /\ (hdr_dec_deg (your_header y) < 0)%Q
  /\ (0 <= src_dej Gallery.half_degree_south)%Q.
Proof.
  cbv zeta.
  assert (Hrun : make_sigproc_obj Example.out_path
                   (Gallery.stream_at "/data/guppi_57000_J0000_0001.fits" (-1 # 2))
                   (Some 4) (Some Example.band) Example.empty_disk
                 = (logged Example.empty_disk [GenerateSigproc],
                    Ok Gallery.half_degree_south)) by (vm_compute; reflexivity).
  assert (Hlo : (-1 < hdr_dec_deg (your_header
                   (Gallery.stream_at "/data/guppi_57000_J0000_0001.fits" (-1 # 2))))%Q)
    by reflexivity.
  assert (Hhi : (hdr_dec_deg (your_header
                   (Gallery.stream_at "/data/guppi_57000_J0000_0001.fits" (-1 # 2)))
                 < 0)%Q) by reflexivity.
  split; [exact Hrun|]. split; [exact Hlo|]. split; [exact Hhi|].
  exact (proj1 (src_dej_small_negative _ _ _ _ _ _ _ Hrun Hlo Hhi)).
Defined.

(** X19: every chunk handed to the writer has the planned number of spectra,
    and each spectrum has exactly as many items as the channel count
    [nchans] that goes into the header, whatever the window is. *)
Theorem chunk_matches_header {sample dtype} (astype : dtype -> sample -> sample)
    (y : Your sample dtype) c nstart nsamp :
  reads_as_requested y ->
  0 <= nsamp ->
  Z.of_nat (length (chunk_data astype y c nstart nsamp)) = nsamp
  /\ Forall (fun row => length row = length (retained_freqs y c))
            (chunk_data astype y c nstart nsamp).
Proof.
  intros Hread Hn.
  destruct (chunk_data_shape astype y c nstart nsamp Hread) as [Hrows Hcols].
  split; [rewrite Hrows; lia | exact Hcols].
Qed.

Lemma chunk_matches_header_witness :
  let y := Example.stream 3 Example.band in
  0 <= 3
  /\ Z.of_nat (length (chunk_data Example.astype y (Some [1; 10]) 0 3)) = 3.
Proof.
  cbv zeta.
  assert (H : 0 <= 3) by lia.
  split; [exact H|].
  exact (proj1 (chunk_matches_header Example.astype
                  (Example.stream 3 Example.band) (Some [1; 10]) 0 3
                  (example_reads_as_requested _ _) H)).
Defined.
